(** * Budget-Buddy: the transaction ledger of [script.js]

    A shallow embedding of the [ExpenseTracker] class of [src/script.js]:
    the ledger ([this.transactions]), the filter state ([this.filters]),
    the mutators [addTransaction], [deleteTransaction] and
    [clearAllTransactions], the derived views [calculateTotals],
    [calculateMonthlyStats] and [getFilteredTransactions], the loader
    [loadTransactions] and the form handler [handleFormSubmit].

    Conventions of the embedding:
    - a JavaScript Number is an IEEE 754 binary64 value, modelled by
      [spec_float] with 53 bits of precision and [emax = 1024]; the
      arithmetic is the Standard Library's [SFadd], [SFsub], [SFleb];
    - a JavaScript string is a [string] whose characters stand for code
      units below 256;
    - the host is passed in explicitly: the clock readings of
      [Date.now()] and [new Date().toISOString()], the answer of
      [confirm], the values of the form's fields, and the content of
      [localStorage];
    - [saveTransactions], [updateUI] and [showNotification] write to
      [localStorage], the DOM and the console only; they leave
      [this.transactions] and [this.filters] alone and are not part of
      the state.

    What the page shows and stores is embedded beside the tracker, as
    functions of it: the store [saveTransactions] writes, the theme
    functions over the store and the page, the selectors' listeners, the
    month options of [populateMonthFilter], the texts of
    [updateSummaryCards] and [updateTransactionLists], and the utilities
    [escapeHtml], [getCategoryIcon] and [formatCurrency]. The host's date
    and currency formatting and its sort are parameters. *)

From Stdlib Require Import ZArith NArith String Ascii List Bool SpecFloat.
From Stdlib Require Import Decimal DecimalString DecimalN.
From stdpp Require Import base decidable list strings gmap.
Import ListNotations.

Local Open Scope Z_scope.
Local Open Scope string_scope.
Local Open Scope list_scope.

(* ===================================================================== *)
(** ** JavaScript numbers *)
(* ===================================================================== *)

Module Number.

Definition prec : Z := 53.
Definition emax : Z := 1024.

Definition t : Type := spec_float.

Definition NaN : t := S754_nan.
Definition zero : t := S754_zero false.
Definition Infinity : t := S754_infinity false.

Definition add (x y : t) : t := SFadd prec emax x y.
Definition sub (x y : t) : t := SFsub prec emax x y.
(** [x <= y]: false as soon as one side is NaN. *)
Definition le (x y : t) : bool := SFleb x y.

(** The Number nearest to [(-1)^neg * m * 10^e], ties to even: the value a
    decimal literal denotes. A negative exponent divides by the power of
    ten, with the remainder kept for the rounding. *)
Definition of_decimal (neg : bool) (m : N) (e : Z) : t :=
  match m with
  | N0 => S754_zero neg
  | Npos p =>
      match e with
      | Zneg k =>
          let '(q, e', l) :=
            SFdiv_core_binary prec emax (Zpos p) 0 (Z.pow 10 (Zpos k)) 0 in
          binary_round_aux prec emax neg q e' l
      | _ => binary_round prec emax neg (p * Z.to_pos (Z.pow 10 e)) 0
      end
  end.

Definition of_Z (z : Z) : t :=
  of_decimal (Z.ltb z 0) (Z.abs_N z) 0.

End Number.

Declare Scope number_scope.
Delimit Scope number_scope with num.
Infix "+" := Number.add : number_scope.
Infix "-" := Number.sub : number_scope.
Infix "<=?" := Number.le : number_scope.

(* ===================================================================== *)
(** ** Strings: white space, digits, [trim] and [Number.prototype.toString] *)
(* ===================================================================== *)

Definition chars (s : string) : list ascii := list_ascii_of_string s.

Definition code (c : ascii) : N := N_of_ascii c.

(** WhiteSpace and LineTerminator code units below 256: TAB, LF, VT, FF,
    CR, SP and NBSP. *)
Definition isWhiteSpace (c : ascii) : bool :=
  let n := code c in
  ((9 <=? n) && (n <=? 13) || (n =? 32) || (n =? 160))%N.

Definition isDigit (c : ascii) : bool :=
  let n := code c in ((48 <=? n) && (n <=? 57))%N.

Definition digitValue (c : ascii) : N := (code c - 48)%N.

Fixpoint trimStart (s : list ascii) : list ascii :=
  match s with
  | c :: s' => if isWhiteSpace c then trimStart s' else s
  | [] => []
  end.

Definition trimEnd (s : list ascii) : list ascii :=
  rev (trimStart (rev s)).

(** [String.prototype.trim]. *)
Definition trim (s : string) : string :=
  string_of_list_ascii (trimEnd (trimStart (chars s))).

(** The longest run of decimal digits at the head, and what follows it. *)
Fixpoint spanDigits (s : list ascii) : list ascii * list ascii :=
  match s with
  | c :: s' =>
      if isDigit c then let '(ds, r) := spanDigits s' in (c :: ds, r)
      else ([], s)
  | [] => ([], [])
  end.

(** The value of a run of decimal digits. *)
Definition digitsValue (ds : list ascii) : N :=
  fold_left (fun acc c => (10 * acc + digitValue c)%N) ds 0%N.

(** [n.toString()] for a non-negative integer below 10^21: its decimal
    digits, ["0"] for zero. *)
Definition toString (n : N) : string :=
  NilZero.string_of_uint (N.to_uint n).

(** Whether a string is falsy, so that [!s] holds: only the empty string
    is. *)
Definition falsy (s : string) : bool :=
  match s with EmptyString => true | _ => false end.

(* ===================================================================== *)
(** ** The global [parseFloat] *)
(* ===================================================================== *)

(** An ExponentPart at the head of [s]: [e] or [E], an optional sign and
    at least one digit. Without one the exponent is 0 and nothing is
    consumed. *)
Definition exponentPart (s : list ascii) : Z :=
  match s with
  | c :: r =>
      if (code c =? 101)%N || (code c =? 69)%N then
        let '(neg, r') :=
          match r with
          | s1 :: r1 =>
              if (code s1 =? 45)%N then (true, r1)
              else if (code s1 =? 43)%N then (false, r1)
              else (false, r)
          | [] => (false, r)
          end in
        match fst (spanDigits r') with
        | [] => 0
        | ds => if neg then - Z.of_N (digitsValue ds) else Z.of_N (digitsValue ds)
        end
      else 0
  | [] => 0
  end.

Definition startsWith (p s : list ascii) : bool :=
  bool_decide (take (length p) s = p).

(** The value of the longest prefix of [s] that is a
    StrUnsignedDecimalLiteral, NaN when there is none. *)
Definition unsignedDecimalLiteral (neg : bool) (s : list ascii) : Number.t :=
  if startsWith (chars "Infinity") s then S754_infinity neg
  else
    let '(ip, r1) := spanDigits s in
    let '(fp, r2) :=
      match r1 with
      | c :: r =>
          if (code c =? 46)%N then spanDigits r else ([], r1)
      | [] => ([], r1)
      end in
    match ip ++ fp with
    | [] => Number.NaN
    | ds =>
        Number.of_decimal neg (digitsValue ds)
          (exponentPart r2 - Z.of_nat (length fp))
    end.

(** [parseFloat(string)]: leading white space is skipped, then the longest
    prefix that is a StrDecimalLiteral is read; what follows it is
    ignored. *)
Definition parseFloat (s : string) : Number.t :=
  match trimStart (chars s) with
  | c :: r =>
      if (code c =? 45)%N then unsignedDecimalLiteral true r
      else if (code c =? 43)%N then unsignedDecimalLiteral false r
      else unsignedDecimalLiteral false (c :: r)
  | [] => Number.NaN
  end.

(** [parseFloat(x)] for a Number [x]: [x] is first printed, then the text
    is read back. Printing gives ["NaN"], ["Infinity"], ["-Infinity"],
    ["0"] for both zeros, and otherwise digits that denote [x] again, so
    the result is [x] itself, except that the sign of a zero is lost. *)
Definition parseFloatNumber (x : Number.t) : Number.t :=
  match x with
  | S754_zero _ => Number.zero
  | _ => x
  end.

(* ===================================================================== *)
(** ** [JSON.parse] *)
(* ===================================================================== *)

(** What a call either returns or throws. *)
Inductive error : Type :=
| SyntaxError.

Inductive completion (A : Type) : Type :=
| Return (a : A)
| Throw (e : error).
Arguments Return {A} a.
Arguments Throw {A} e.

Module JSON.

Local Set Warnings "-register-all".

(** A parsed value. A string is its sequence of code units (an escape
    [\uXXXX] may denote any of them); an object keeps its members in the
    order of the text. *)
Inductive value : Type :=
| Null
| Bool (b : bool)
| Num (n : Number.t)
| Str (s : list N)
| Array (elements : list value)
| Object (members : list (list N * value)).

Inductive token : Type :=
| TLBrace | TRBrace | TLBracket | TRBracket | TComma | TColon
| TString (s : list N)
| TScalar (v : value).

(** *** Lexer: one character at a time *)

Inductive lexState : Type :=
| LStart
| LWord (w : list ascii)              (* a number or a literal, reversed *)
| LString (s : list N)                (* inside a string, reversed *)
| LEscape (s : list N)                (* after a backslash *)
| LUnicode (s : list N) (k : nat) (v : N). (* after \u: k digits read *)

Definition isJSONWhiteSpace (c : ascii) : bool :=
  let n := code c in ((n =? 9) || (n =? 10) || (n =? 13) || (n =? 32))%N.

Definition isLetter (c : ascii) : bool :=
  let n := code c in
  ((65 <=? n) && (n <=? 90) || (97 <=? n) && (n <=? 122))%N.

Definition isWordChar (c : ascii) : bool :=
  let n := code c in
  (isDigit c || isLetter c || (n =? 43) || (n =? 45) || (n =? 46))%N.

Definition hexValue (c : ascii) : option N :=
  let n := code c in
  if isDigit c then Some (n - 48)%N
  else if ((97 <=? n) && (n <=? 102))%N then Some (n - 87)%N
  else if ((65 <=? n) && (n <=? 70))%N then Some (n - 55)%N
  else None.

(** A JSON number, the whole of [s]: an optional minus sign; an integer
    part that is 0 or starts with a digit from 1 to 9; optionally a dot and
    at least one digit; optionally [e] or [E], an optional sign and at
    least one digit. *)
Definition number (s : list ascii) : option Number.t :=
  let '(neg, r) :=
    match s with
    | "-"%char :: r => (true, r)
    | _ => (false, s)
    end in
  let '(ip, r1) := spanDigits r in
  let intOk :=
    match ip with
    | [] => false
    | "0"%char :: _ :: _ => false
    | _ => true
    end in
  let '(fracOk, fp, r2) :=
    match r1 with
    | "."%char :: r' =>
        let '(fp, r2) := spanDigits r' in
        (negb (bool_decide (fp = [])), fp, r2)
    | _ => (true, [], r1)
    end in
  let '(expOk, e) :=
    match r2 with
    | [] => (true, 0)
    | c :: r' =>
        if (code c =? 101)%N || (code c =? 69)%N then
          let '(eneg, r'') :=
            match r' with
            | "-"%char :: r'' => (true, r'')
            | "+"%char :: r'' => (false, r'')
            | _ => (false, r')
            end in
          match spanDigits r'' with
          | ((_ :: _) as ds, []) =>
              (true, if eneg then - Z.of_N (digitsValue ds)
                     else Z.of_N (digitsValue ds))
          | _ => (false, 0)
          end
        else (false, 0)
    end in
  if intOk && fracOk && expOk then
    Some (Number.of_decimal neg (digitsValue (ip ++ fp))
            (e - Z.of_nat (length fp)))
  else None.

(** A finished word (given reversed) is a literal or a number. *)
Definition finishWord (w : list ascii) : option token :=
  let s := rev w in
  if bool_decide (s = chars "null") then Some (TScalar Null)
  else if bool_decide (s = chars "true") then Some (TScalar (Bool true))
  else if bool_decide (s = chars "false") then Some (TScalar (Bool false))
  else option_map (fun n => TScalar (Num n)) (number s).

Definition lexStart (c : ascii) : option (lexState * list token) :=
  if isJSONWhiteSpace c then Some (LStart, [])
  else if (code c =? 34)%N then Some (LString [], [])
  else if isWordChar c then Some (LWord [c], [])
  else
    match c with
    | "{"%char => Some (LStart, [TLBrace])
    | "}"%char => Some (LStart, [TRBrace])
    | "["%char => Some (LStart, [TLBracket])
    | "]"%char => Some (LStart, [TRBracket])
    | ","%char => Some (LStart, [TComma])
    | ":"%char => Some (LStart, [TColon])
    | _ => None
    end.

Definition lexStep (st : lexState) (c : ascii)
  : option (lexState * list token) :=
  match st with
  | LStart => lexStart c
  | LWord w =>
      if isWordChar c then Some (LWord (c :: w), [])
      else
        match finishWord w, lexStart c with
        | Some tok, Some (st', toks) => Some (st', tok :: toks)
        | _, _ => None
        end
  | LString s =>
      if (code c =? 34)%N then Some (LStart, [TString (rev s)])
      else if (code c =? 92)%N then Some (LEscape s, [])
      else if (code c <? 32)%N then None
      else Some (LString (code c :: s), [])
  | LEscape s =>
      if (code c =? 34)%N then Some (LString (34%N :: s), [])
      else
        match c with
        | "\"%char => Some (LString (92%N :: s), [])
        | "/"%char => Some (LString (47%N :: s), [])
        | "b"%char => Some (LString (8%N :: s), [])
        | "f"%char => Some (LString (12%N :: s), [])
        | "n"%char => Some (LString (10%N :: s), [])
        | "r"%char => Some (LString (13%N :: s), [])
        | "t"%char => Some (LString (9%N :: s), [])
        | "u"%char => Some (LUnicode s 0 0%N, [])
        | _ => None
        end
  | LUnicode s k v =>
      match hexValue c with
      | Some d =>
          let v' := (16 * v + d)%N in
          if (k =? 3)%nat then Some (LString (v' :: s), [])
          else Some (LUnicode s (S k) v', [])
      | None => None
      end
  end.

Fixpoint lexFrom (st : lexState) (s : list ascii) : option (list token) :=
  match s with
  | [] =>
      match st with
      | LStart => Some []
      | LWord w => option_map (fun tok => [tok]) (finishWord w)
      | _ => None
      end
  | c :: s' =>
      match lexStep st c with
      | Some (st', toks) => option_map (app toks) (lexFrom st' s')
      | None => None
      end
  end.

(** *** Parser: one token at a time, with the open containers on a stack *)

Inductive frame : Type :=
| FArray (done : list value)                        (* reversed *)
| FObject (done : list (list N * value)) (key : list N).

Inductive parseState : Type :=
| PValue (stack : list frame)          (* a value is expected *)
| PArrayStart (stack : list frame)     (* after [: a value or ] *)
| PObjectStart (stack : list frame)    (* after {: a key or } *)
| PKey (done : list (list N * value)) (stack : list frame)
| PColon (done : list (list N * value)) (key : list N) (stack : list frame)
| PAfter (v : value) (stack : list frame). (* v is complete *)

Definition valueStep (stack : list frame) (tok : token) : option parseState :=
  match tok with
  | TScalar v => Some (PAfter v stack)
  | TString s => Some (PAfter (Str s) stack)
  | TLBracket => Some (PArrayStart stack)
  | TLBrace => Some (PObjectStart stack)
  | _ => None
  end.

Definition parseStep (st : parseState) (tok : token) : option parseState :=
  match st with
  | PValue stack => valueStep stack tok
  | PArrayStart stack =>
      match tok with
      | TRBracket => Some (PAfter (Array []) stack)
      | _ => valueStep (FArray [] :: stack) tok
      end
  | PObjectStart stack =>
      match tok with
      | TRBrace => Some (PAfter (Object []) stack)
      | TString k => Some (PColon [] k stack)
      | _ => None
      end
  | PKey done stack =>
      match tok with
      | TString k => Some (PColon done k stack)
      | _ => None
      end
  | PColon done k stack =>
      match tok with
      | TColon => Some (PValue (FObject done k :: stack))
      | _ => None
      end
  | PAfter v (FArray done :: stack) =>
      match tok with
      | TComma => Some (PValue (FArray (v :: done) :: stack))
      | TRBracket => Some (PAfter (Array (rev (v :: done))) stack)
      | _ => None
      end
  | PAfter v (FObject done k :: stack) =>
      match tok with
      | TComma => Some (PKey ((k, v) :: done) stack)
      | TRBrace => Some (PAfter (Object (rev ((k, v) :: done))) stack)
      | _ => None
      end
  | PAfter _ [] => None
  end.

Fixpoint parseFrom (st : parseState) (toks : list token) : option value :=
  match toks with
  | [] =>
      match st with
      | PAfter v [] => Some v
      | _ => None
      end
  | tok :: toks' =>
      match parseStep st tok with
      | Some st' => parseFrom st' toks'
      | None => None
      end
  end.

(** [JSON.parse(text)]: the value of a well-formed JSON text, a
    SyntaxError otherwise. *)
Definition parse (text : string) : completion value :=
  match lexFrom LStart (chars text) with
  | Some toks =>
      match parseFrom (PValue []) toks with
      | Some v => Return v
      | None => Throw SyntaxError
      end
  | None => Throw SyntaxError
  end.

End JSON.

(* ===================================================================== *)
(** ** The data model *)
(* ===================================================================== *)

(** An entry of [this.transactions], with the fields [addTransaction]
    writes and the persisted layout has. [amount] is a Number: the form
    handler stores [parseFloat(amount)]. *)
Module Transaction.
Record t : Type := {
  id : string;
  title : string;
  amount : Number.t;
  type : string;
  category : string;
  date : string;
  timestamp : string
}.
End Transaction.

(** The object [handleFormSubmit] passes to [addTransaction]: it has these
    five properties and no other, so the spread [...transaction] sets
    them and touches neither [id] nor [timestamp]. *)
Module Input.
Record t : Type := {
  title : string;
  amount : Number.t;
  type : string;
  category : string;
  date : string
}.
End Input.

(** [this.filters]. *)
Module Filters.
Record t : Type := {
  type : string;
  category : string;
  month : string
}.
End Filters.

(** The two readings of the clock one call of [addTransaction] takes:
    [Date.now()], in milliseconds, and [new Date().toISOString()]. *)
Module Clock.
Record t : Type := {
  now : N;
  toISOString : string
}.
End Clock.

(** The values of the form's five fields when it is submitted. *)
Module Form.
Record t : Type := {
  title : string;
  amount : string;
  type : string;
  category : string;
  date : string
}.
End Form.

(** The result of [calculateTotals]. *)
Module Totals.
Record t : Type := {
  income : Number.t;
  expenses : Number.t;
  balance : Number.t
}.
End Totals.

(** The result of [calculateMonthlyStats]. *)
Module Stats.
Record t : Type := {
  count : nat;
  income : Number.t;
  expenses : Number.t;
  net : Number.t
}.
End Stats.

(** The fields of an [ExpenseTracker] instance. *)
Record ExpenseTracker : Type := {
  transactions : list Transaction.t;
  currentView : string;
  filters : Filters.t
}.

Definition setTransactions (this : ExpenseTracker)
    (l : list Transaction.t) : ExpenseTracker :=
  {| transactions := l;
     currentView := currentView this;
     filters := filters this |}.

Definition setFilters (this : ExpenseTracker) (f : Filters.t)
  : ExpenseTracker :=
  {| transactions := transactions this;
     currentView := currentView this;
     filters := f |}.

(** The filter state the constructor installs. *)
Definition noFilter : Filters.t :=
  {| Filters.type := "all"; Filters.category := "all"; Filters.month := "all" |}.

(* ===================================================================== *)
(** ** Data management *)
(* ===================================================================== *)

(** [loadTransactions()], over the content of [localStorage]:
[[
    const data = localStorage.getItem('transactions');
    return data ? JSON.parse(data) : [];
]]
    [getItem] gives [null] for a key that is not there; [null] and the
    empty string are the falsy values [data] can take. *)
Definition loadTransactions (localStorage : gmap string string)
  : completion JSON.value :=
  let data := localStorage !! "transactions" in
  match data with
  | Some text => if falsy text then Return (JSON.Array []) else JSON.parse text
  | None => Return (JSON.Array [])
  end.

(** The object literal of [addTransaction]. *)
Definition newTransaction (clock : Clock.t) (transaction : Input.t)
  : Transaction.t :=
  {| Transaction.id := toString (Clock.now clock);
     Transaction.title := Input.title transaction;
     Transaction.amount := Input.amount transaction;
     Transaction.type := Input.type transaction;
     Transaction.category := Input.category transaction;
     Transaction.date := Input.date transaction;
     Transaction.timestamp := Clock.toISOString clock |}.

(** [addTransaction(transaction)]: [unshift] puts the new entry first. *)
Definition addTransaction (this : ExpenseTracker) (clock : Clock.t)
    (transaction : Input.t) : ExpenseTracker :=
  setTransactions this (newTransaction clock transaction :: transactions this).

(** [deleteTransaction(id)]; [confirmed] is the answer of [confirm]. *)
Definition deleteTransaction (this : ExpenseTracker) (confirmed : bool)
    (id : string) : ExpenseTracker :=
  if confirmed then
    setTransactions this
      (List.filter (fun t => negb (Transaction.id t =? id)) (transactions this))
  else this.

(** [clearAllTransactions()]; [confirmed] is the answer of [confirm]. *)
Definition clearAllTransactions (this : ExpenseTracker) (confirmed : bool)
  : ExpenseTracker :=
  if confirmed then setTransactions this [] else this.

(* ===================================================================== *)
(** ** Filtering and calculations *)
(* ===================================================================== *)

Definition getFilteredTransactions (this : ExpenseTracker)
  : list Transaction.t :=
  List.filter
    (fun transaction =>
       let typeMatch :=
         (Filters.type (filters this) =? "all")
         || (Transaction.type transaction =? Filters.type (filters this)) in
       let categoryMatch :=
         (Filters.category (filters this) =? "all")
         || (Transaction.category transaction =? Filters.category (filters this)) in
       typeMatch && categoryMatch)
    (transactions this).

(** [l.filter(t => t.type === type).reduce((sum, t) => sum +
    parseFloat(t.amount), 0)], the expression both calculations use. *)
Definition sumOfType (type : string) (l : list Transaction.t) : Number.t :=
  fold_left
    (fun sum t => (sum + parseFloatNumber (Transaction.amount t))%num)
    (List.filter (fun t => Transaction.type t =? type) l)
    Number.zero.

Definition calculateTotals (this : ExpenseTracker) : Totals.t :=
  let filteredTransactions := getFilteredTransactions this in
  let income := sumOfType "income" filteredTransactions in
  let expenses := sumOfType "expense" filteredTransactions in
  let balance := (income - expenses)%num in
  {| Totals.income := income;
     Totals.expenses := expenses;
     Totals.balance := balance |}.

Section MonthlyStats.

(** [new Date(d).toLocaleDateString('en-US', {year: 'numeric', month:
    'long'})]: the month label of a date string, which the host computes
    in its own time zone. *)
Variable monthLabel : string -> string.

Definition calculateMonthlyStats (this : ExpenseTracker) (month : string)
  : Stats.t :=
  let filtered :=
    if negb (month =? "all") then
      List.filter
        (fun t =>
           let transactionMonth := monthLabel (Transaction.date t) in
           transactionMonth =? month)
        (transactions this)
    else transactions this in
  let income := sumOfType "income" filtered in
  let expenses := sumOfType "expense" filtered in
  {| Stats.count := length filtered;
     Stats.income := income;
     Stats.expenses := expenses;
     Stats.net := (income - expenses)%num |}.

End MonthlyStats.

(* ===================================================================== *)
(** ** The form handler *)
(* ===================================================================== *)

(** One validation step of [handleFormSubmit]: when [failed], the message
    is shown ([showError]) and [isValid] becomes false. The second
    component lists the messages shown so far, with the element each was
    written to. *)
Definition check (failed : bool) (elementId message : string)
    (st : bool * list (string * string)) : bool * list (string * string) :=
  let '(isValid, shown) := st in
  if failed then (false, shown ++ [(elementId, message)]) else (isValid, shown).

Definition validate (form : Form.t) : bool * list (string * string) :=
  let title := trim (Form.title form) in
  let amount := Form.amount form in
  let st := (true, []) in
  let st := check (falsy title) "titleError" "Title is required" st in
  let st := check (falsy amount || (parseFloat amount <=? Number.zero)%num)
              "amountError" "Please enter a valid amount" st in
  let st := check (falsy (Form.type form))
              "typeError" "Please select a type" st in
  let st := check (falsy (Form.category form))
              "categoryError" "Please select a category" st in
  let st := check (falsy (Form.date form))
              "dateError" "Date is required" st in
  st.

(** [handleFormSubmit()]: the tracker afterwards and the error messages
    on display ([clearErrors] wiped the earlier ones). *)
Definition handleFormSubmit (this : ExpenseTracker) (clock : Clock.t)
    (form : Form.t) : ExpenseTracker * list (string * string) :=
  let '(isValid, shown) := validate form in
  if negb isValid then (this, shown)
  else
    (addTransaction this clock
       {| Input.title := trim (Form.title form);
          Input.amount := parseFloat (Form.amount form);
          Input.type := Form.type form;
          Input.category := Form.category form;
          Input.date := Form.date form |},
     shown).

(* ===================================================================== *)
(** ** Selectors, month options and the recent list *)
(* ===================================================================== *)

(** The [change] listeners [setupEventListeners] puts on the three
    selectors: each stores the selected value in [this.filters]. (The
    first two then call [updateUI], the third [updateMonthlyStats]; both
    only redraw.) *)
Definition typeFilterChange (this : ExpenseTracker) (value : string)
  : ExpenseTracker :=
  setFilters this
    {| Filters.type := value;
       Filters.category := Filters.category (filters this);
       Filters.month := Filters.month (filters this) |}.

Definition categoryFilterChange (this : ExpenseTracker) (value : string)
  : ExpenseTracker :=
  setFilters this
    {| Filters.type := Filters.type (filters this);
       Filters.category := value;
       Filters.month := Filters.month (filters this) |}.

Definition monthFilterChange (this : ExpenseTracker) (value : string)
  : ExpenseTracker :=
  setFilters this
    {| Filters.type := Filters.type (filters this);
       Filters.category := Filters.category (filters this);
       Filters.month := value |}.

(** [months.add(month)] on a [Set] kept in insertion order. *)
Definition setAdd (months : list string) (month : string) : list string :=
  if existsb (String.eqb month) months then months else months ++ [month].

Section MonthOptions.

Variable monthLabel : string -> string.
(** The time value of [new Date(label)], NaN for an invalid date. *)
Variable timeValue : string -> Number.t.
(** [Array.prototype.sort] with a comparison function. *)
Variable sort : (string -> string -> Number.t) -> list string -> list string.

(** The [months] set of [populateMonthFilter], as [Array.from] lists it. *)
Definition observedMonths (this : ExpenseTracker) : list string :=
  fold_left
    (fun months t => setAdd months (monthLabel (Transaction.date t)))
    (transactions this) [].

(** The [sortedMonths] of [populateMonthFilter]: the values of the options
    that follow "all". *)
Definition sortedMonths (this : ExpenseTracker) : list string :=
  sort (fun a b => (timeValue b - timeValue a)%num) (observedMonths this).

End MonthOptions.

(** An insertion sort with a comparison function in the manner of
    [Array.prototype.sort]: [b] goes before [a] when [compare a b] is
    above 0. It is stable. *)
Fixpoint insertSorted (compare : string -> string -> Number.t) (x : string)
    (l : list string) : list string :=
  match l with
  | [] => [x]
  | y :: l' =>
      if SFltb Number.zero (compare y x) then x :: y :: l'
      else y :: insertSorted compare x l'
  end.

Definition insertionSort (compare : string -> string -> Number.t)
    (l : list string) : list string :=
  fold_left (fun sorted x => insertSorted compare x sorted) l [].

(** [this.transactions.slice(0, 5)], the recent transactions of
    [updateTransactionLists]. *)
Definition recentTransactions (this : ExpenseTracker) : list Transaction.t :=
  firstn 5 (transactions this).

(* ===================================================================== *)
(** ** Utility functions *)
(* ===================================================================== *)

(** The double quote, as a string and as a character. *)
Definition dquote : ascii := ascii_of_N 34.
Definition dq : string := String dquote EmptyString.

(** The [map] object of [escapeHtml]: its five own keys. *)
Definition escapeMap (m : ascii) : option string :=
  if Ascii.eqb m dquote then Some "&quot;"
  else
    match m with
    | "&"%char => Some "&amp;"
    | "<"%char => Some "&lt;"
    | ">"%char => Some "&gt;"
    | "'"%char => Some "&#039;"
    | _ => None
    end.

(** The character class of [escapeHtml]'s pattern: ampersand, the two
    angle brackets and the two quotes. *)
Definition escapePattern (c : ascii) : bool :=
  let n := code c in
  ((n =? 38) || (n =? 60) || (n =? 62) || (n =? 34) || (n =? 39))%N.

(** [text.replace(pattern, m => map[m])]: every match, a single
    character, is replaced by what the map holds for it. (A key the map
    lacks would give [undefined], printed as such.) *)
Fixpoint escapeHtml (text : string) : string :=
  match text with
  | EmptyString => EmptyString
  | String c rest =>
      (if escapePattern c then
         match escapeMap c with
         | Some entity => entity
         | None => "undefined"
         end
       else String c EmptyString)
      ++ escapeHtml rest
  end.

(** What [icons[category] || 'fas fa-circle'] evaluates to: a class name,
    or, for a name every object inherits a property for, that inherited
    function or object. *)
Inductive iconValue : Type :=
| IconClass (name : string)
| Inherited (property : string).

(** The own properties of the [icons] object. *)
Definition icons (category : string) : option string :=
  if category =? "food" then Some "fas fa-utensils"
  else if category =? "travel" then Some "fas fa-plane"
  else if category =? "rent" then Some "fas fa-home"
  else if category =? "shopping" then Some "fas fa-shopping-bag"
  else if category =? "salary" then Some "fas fa-money-bill-wave"
  else if category =? "other" then Some "fas fa-ellipsis-h"
  else None.

(** The properties an object literal inherits from [Object.prototype];
    each holds a function or an object, so each is truthy. *)
Definition objectPrototypeProperties : list string :=
  ["constructor"; "hasOwnProperty"; "isPrototypeOf"; "propertyIsEnumerable";
   "toLocaleString"; "toString"; "valueOf"; "__proto__";
   "__defineGetter__"; "__defineSetter__"; "__lookupGetter__";
   "__lookupSetter__"].

Definition getCategoryIcon (category : string) : iconValue :=
  match icons category with
  | Some name => IconClass name
  | None =>
      if existsb (String.eqb category) objectPrototypeProperties
      then Inherited category
      else IconClass "fas fa-circle"
  end.

(* ===================================================================== *)
(** ** Rendering the lists *)
(* ===================================================================== *)

(** The line feed. *)
Definition nl : string := String (ascii_of_N 10) EmptyString.

(** [array.join('')]. *)
Definition join (l : list string) : string :=
  fold_right String.append EmptyString l.

Definition noRecentTransactions : string :=
  "<p class=" ++ dq ++ "empty-state" ++ dq
  ++ ">No transactions yet. Add your first transaction!</p>".

Definition noTransactionsFound : string :=
  "<p class=" ++ dq ++ "empty-state" ++ dq ++ ">No transactions found.</p>".

Section Rendering.

(** [formatDate]: the host's short form of a date string,
    [new Date(dateString).toLocaleDateString('en-US', ...)]. *)
Variable formatDate : string -> string.
(** The [format] of the [Intl.NumberFormat] that [formatCurrency] builds,
    for US dollars with two fraction digits. *)
Variable currencyFormat : Number.t -> string.
(** The text a template gets for a property inherited from
    [Object.prototype]. *)
Variable inheritedText : string -> string.

(** [formatCurrency(amount)] formats [Math.abs(amount)]. *)
Definition formatCurrency (amount : Number.t) : string :=
  currencyFormat (SFabs amount).

(** [createTransactionHTML(transaction)]: the template, line for line. *)
Definition createTransactionHTML (transaction : Transaction.t) : string :=
  let typeClass := Transaction.type transaction in
  let amountPrefix :=
    if Transaction.type transaction =? "income" then "+" else "-" in
  let categoryIcon :=
    match getCategoryIcon (Transaction.category transaction) with
    | IconClass name => name
    | Inherited property => inheritedText property
    end in
  (
    nl ++
    "            <div class=" ++ dq ++ "transaction-item " ++ typeClass ++ dq ++ " data-testid=" ++ dq ++ "transaction-item-" ++ Transaction.id transaction ++ dq ++ ">" ++ nl ++
    "                <div class=" ++ dq ++ "transaction-info" ++ dq ++ ">" ++ nl ++
    "                    <div class=" ++ dq ++ "transaction-title" ++ dq ++ ">" ++ escapeHtml (Transaction.title transaction) ++ "</div>" ++ nl ++
    "                    <div class=" ++ dq ++ "transaction-meta" ++ dq ++ ">" ++ nl ++
    "                        <span class=" ++ dq ++ "transaction-category" ++ dq ++ " data-testid=" ++ dq ++ "transaction-category" ++ dq ++ ">" ++ nl ++
    "                            <i class=" ++ dq ++ categoryIcon ++ dq ++ "></i>" ++ nl ++
    "                            " ++ Transaction.category transaction ++ nl ++
    "                        </span>" ++ nl ++
    "                        <span data-testid=" ++ dq ++ "transaction-date" ++ dq ++ ">" ++ formatDate (Transaction.date transaction) ++ "</span>" ++ nl ++
    "                    </div>" ++ nl ++
    "                </div>" ++ nl ++
    "                <div class=" ++ dq ++ "transaction-actions" ++ dq ++ ">" ++ nl ++
    "                    <span class=" ++ dq ++ "transaction-amount " ++ typeClass ++ dq ++ " data-testid=" ++ dq ++ "transaction-amount" ++ dq ++ ">" ++ nl ++
    "                        " ++ amountPrefix ++ formatCurrency (Transaction.amount transaction) ++ nl ++
    "                    </span>" ++ nl ++
    "                    <button " ++ nl ++
    "                        class=" ++ dq ++ "btn-delete" ++ dq ++ " " ++ nl ++
    "                        onclick=" ++ dq ++ "tracker.deleteTransaction('" ++ Transaction.id transaction ++ "')" ++ dq ++ nl ++
    "                        data-testid=" ++ dq ++ "delete-transaction-btn-" ++ Transaction.id transaction ++ dq ++ nl ++
    "                    >" ++ nl ++
    "                        <i class=" ++ dq ++ "fas fa-trash" ++ dq ++ "></i>" ++ nl ++
    "                    </button>" ++ nl ++
    "                </div>" ++ nl ++
    "            </div>" ++ nl ++
    "        "
  )%string.

(** [updateTransactionLists()]: the content it gives the recent list and
    the list of all transactions. *)
Definition updateTransactionLists (this : ExpenseTracker) : string * string :=
  let recentTransactions := recentTransactions this in
  let filteredTransactions := getFilteredTransactions this in
  ((if (length recentTransactions =? 0)%nat then noRecentTransactions
    else join (map createTransactionHTML recentTransactions)),
   (if (length filteredTransactions =? 0)%nat then noTransactionsFound
    else join (map createTransactionHTML filteredTransactions))).

End Rendering.

(** [updateSummaryCards()]: the texts it writes to the balance card, the
    income card and the expenses card. *)
Definition updateSummaryCards (currencyFormat : Number.t -> string)
    (this : ExpenseTracker) : string * string * string :=
  let totals := calculateTotals this in
  (formatCurrency currencyFormat (Totals.balance totals),
   formatCurrency currencyFormat (Totals.income totals),
   formatCurrency currencyFormat (Totals.expenses totals)).

(* ===================================================================== *)
(** ** [Number.prototype.toString] and [JSON.stringify] *)
(* ===================================================================== *)

(** Structural equality of Numbers. *)
Definition sameNumber (x y : Number.t) : bool :=
  match x, y with
  | S754_zero s, S754_zero s' => Bool.eqb s s'
  | S754_infinity s, S754_infinity s' => Bool.eqb s s'
  | S754_nan, S754_nan => true
  | S754_finite s m e, S754_finite s' m' e' =>
      Bool.eqb s s' && Pos.eqb m m' && Z.eqb e e'
  | _, _ => false
  end.

(** The value [m * 2^e] as a fraction, and a fraction times [10^j]. *)
Definition fraction (m : positive) (e : Z) : Z * Z :=
  match e with
  | Zneg p => (Zpos m, 2 ^ Zpos p)
  | _ => (Zpos m * 2 ^ e, 1)
  end.

Definition scale (q : Z * Z) (j : Z) : Z * Z :=
  let '(a, b) := q in
  match j with
  | Zneg p => (a, b * 10 ^ Zpos p)
  | _ => (a * 10 ^ j, b)
  end.

(** The [n] with [10^(n-1) <= q < 10^n], reached from a first guess. *)
Fixpoint adjustMagnitude (fuel : nat) (q : Z * Z) (n : Z) : Z :=
  match fuel with
  | O => n
  | S fuel' =>
      let '(a, b) := scale q (1 - n) in
      if (a <? b)%Z then adjustMagnitude fuel' q (n - 1)
      else if (10 * b <=? a)%Z then adjustMagnitude fuel' q (n + 1)
      else n
  end.

Definition magnitude (m : positive) (e : Z) : Z :=
  adjustMagnitude 8 (fraction m e)
    ((Z.log2 (Zpos m) + e) * 30103 / 100000 + 1).

(** The [k]-digit decimals next to [x = m * 2^e]: the one below and the
    one above [x / 10^(n-k)]. Of those that denote [x] again the nearer
    one is taken, the even one on a tie. *)
Definition candidate (x : Number.t) (q : Z * Z) (n k : Z) : option (Z * Z) :=
  let '(a, b) := scale q (k - n) in
  let lo := a / b in
  let r := a mod b in
  let hi := lo + 1 in
  let denotes s := sameNumber (Number.of_decimal false (Z.to_N s) (n - k)) x in
  let pick s :=
    if (s =? 10 ^ k)%Z then Some (10 ^ (k - 1), n + 1) else Some (s, n) in
  match denotes lo, denotes hi with
  | true, true =>
      if (2 * r <? b)%Z then pick lo
      else if (b <? 2 * r)%Z then pick hi
      else if Z.even lo then pick lo else pick hi
  | true, false => pick lo
  | false, true => pick hi
  | false, false => None
  end.

(** The least number of digits that denotes [x], from [k] on; seventeen
    digits always do. *)
Fixpoint shortest (fuel : nat) (x : Number.t) (q : Z * Z) (n k : Z) : Z * Z :=
  match fuel with
  | O => (fst (scale q (k - n)) / snd (scale q (k - n)), n)
  | S fuel' =>
      match candidate x q n k with
      | Some sn => sn
      | None => shortest fuel' x q n (k + 1)
      end
  end.

Definition zeros (n : Z) : string :=
  string_of_list_ascii (repeat "0"%char (Z.to_nat n)).

(** The text of the digits [digits], which stand for
    [0.digits * 10^n]. *)
Definition formatDecimal (digits : string) (n : Z) : string :=
  let k := Z.of_nat (String.length digits) in
  if ((-6 <? n) && (n <=? 21))%Z then
    if (k <=? n)%Z then digits ++ zeros (n - k)
    else if (0 <? n)%Z then
      substring 0 (Z.to_nat n) digits ++ "."
      ++ substring (Z.to_nat n) (Z.to_nat (k - n)) digits
    else "0." ++ zeros (- n) ++ digits
  else
    let e := n - 1 in
    let exponent : string :=
      ((if (0 <=? e)%Z then "+" else "-") ++ toString (Z.abs_N e))%string in
    match digits with
    | String d EmptyString => String d EmptyString ++ "e" ++ exponent
    | String d rest => String d EmptyString ++ "." ++ rest ++ "e" ++ exponent
    | EmptyString => EmptyString
    end.

(** [x.toString()] for a Number [x]. *)
Definition numberToString (x : Number.t) : string :=
  match x with
  | S754_nan => "NaN"
  | S754_zero _ => "0"
  | S754_infinity s => if s then "-Infinity" else "Infinity"
  | S754_finite s m e =>
      let '(digits, n) :=
        shortest 17 (S754_finite false m e) (fraction m e) (magnitude m e) 1 in
      ((if s then "-" else "") ++ formatDecimal (toString (Z.to_N digits)) n)%string
  end.

Definition hexDigit (n : N) : ascii :=
  ascii_of_N (if (n <? 10)%N then 48 + n else 87 + n).

(** What [JSON.stringify] writes for one code unit of a string. *)
Definition quoteChar (c : ascii) : string :=
  let n := code c in
  if (n =? 8)%N then "\b"
  else if (n =? 9)%N then "\t"
  else if (n =? 10)%N then "\n"
  else if (n =? 12)%N then "\f"
  else if (n =? 13)%N then "\r"
  else if (n =? 34)%N then "\" ++ dq
  else if (n =? 92)%N then "\\"
  else if (n <? 32)%N then
    "\u00" ++ String (hexDigit (n / 16)) (String (hexDigit (n mod 16)) "")
  else String c "".

Fixpoint quoteBody (s : string) : string :=
  match s with
  | EmptyString => EmptyString
  | String c rest => quoteChar c ++ quoteBody rest
  end.

(** A string as [JSON.stringify] writes it. *)
Definition quoteJSONString (s : string) : string :=
  dq ++ quoteBody s ++ dq.

(** A Number as [JSON.stringify] writes it: NaN and the infinities become
    [null]. *)
Definition stringifyNumber (x : Number.t) : string :=
  match x with
  | S754_nan | S754_infinity _ => "null"
  | _ => numberToString x
  end.

(** A transaction as [JSON.stringify] writes it: its properties in the
    order [addTransaction] created them. *)
Definition stringifyTransaction (t : Transaction.t) : string :=
  "{" ++ quoteJSONString "id" ++ ":" ++ quoteJSONString (Transaction.id t)
  ++ "," ++ quoteJSONString "title" ++ ":"
  ++ quoteJSONString (Transaction.title t)
  ++ "," ++ quoteJSONString "amount" ++ ":"
  ++ stringifyNumber (Transaction.amount t)
  ++ "," ++ quoteJSONString "type" ++ ":"
  ++ quoteJSONString (Transaction.type t)
  ++ "," ++ quoteJSONString "category" ++ ":"
  ++ quoteJSONString (Transaction.category t)
  ++ "," ++ quoteJSONString "date" ++ ":"
  ++ quoteJSONString (Transaction.date t)
  ++ "," ++ quoteJSONString "timestamp" ++ ":"
  ++ quoteJSONString (Transaction.timestamp t) ++ "}".

(** The elements of an array, with commas between them. *)
Fixpoint commaSeparated (items : list string) : string :=
  match items with
  | [] => EmptyString
  | [item] => item
  | item :: rest => item ++ "," ++ commaSeparated rest
  end.

(** [JSON.stringify(this.transactions)]. *)
Definition stringify (l : list Transaction.t) : string :=
  "[" ++ commaSeparated (map stringifyTransaction l) ++ "]".

(** [saveTransactions()]: the store afterwards. *)
Definition saveTransactions (this : ExpenseTracker)
    (localStorage : gmap string string) : gmap string string :=
  <["transactions" := stringify (transactions this)]> localStorage.

(* ===================================================================== *)
(** ** Theme management *)
(* ===================================================================== *)

(** The two places of the document the theme functions write to: the
    [data-theme] attribute of the root element, absent until it is set,
    and the content of the [themeToggle] button. *)
Module Page.
Record t : Type := {
  dataTheme : option string;
  themeToggle : string
}.
End Page.

Definition lightModeButton : string :=
  "<i class=" ++ dq ++ "fas fa-sun" ++ dq ++ "></i><span>Light Mode</span>".

Definition darkModeButton : string :=
  "<i class=" ++ dq ++ "fas fa-moon" ++ dq ++ "></i><span>Dark Mode</span>".

(** [x || 'light'] for [x] a string or [null]. *)
Definition orLight (x : option string) : string :=
  match x with
  | Some s => if falsy s then "light" else s
  | None => "light"
  end.

Definition applyTheme (theme : string) : Page.t :=
  {| Page.dataTheme := Some theme;
     Page.themeToggle :=
       if theme =? "dark" then lightModeButton else darkModeButton |}.

Definition loadTheme (localStorage : gmap string string) : Page.t :=
  let theme := orLight (localStorage !! "theme") in
  applyTheme theme.

(** [toggleTheme()]: the store and the page afterwards. *)
Definition toggleTheme (localStorage : gmap string string) (page : Page.t)
  : gmap string string * Page.t :=
  let currentTheme := orLight (Page.dataTheme page) in
  let newTheme := if currentTheme =? "light" then "dark" else "light" in
  (<["theme" := newTheme]> localStorage, applyTheme newTheme).

(* ===================================================================== *)
(** ** Specification vocabulary *)
(* ===================================================================== *)

(** [Kept P l l']: [l'] is [l] with exactly the elements that satisfy [P]
    left in, each at its place. *)
Inductive Kept {A : Type} (P : A -> Prop) : list A -> list A -> Prop :=
| Kept_nil : Kept P [] []
| Kept_keep x l l' : P x -> Kept P l l' -> Kept P (x :: l) (x :: l')
| Kept_drop x l l' : ~ P x -> Kept P l l' -> Kept P (x :: l) l'.

(** A transaction passes the type and category selectors of [f]. *)
Definition passes (f : Filters.t) (t : Transaction.t) : Prop :=
  (Filters.type f = "all" \/ Transaction.type t = Filters.type f)
  /\ (Filters.category f = "all"
      \/ Transaction.category t = Filters.category f).

(** The sum, in list order and starting from [acc], of the amounts of the
    transactions of [l] whose type is [type]. An amount counts as
    [parseFloat] reads it. *)
Fixpoint sumWhere (type : string) (l : list Transaction.t) (acc : Number.t)
  : Number.t :=
  match l with
  | [] => acc
  | t :: l' =>
      sumWhere type l'
        (if decide (Transaction.type t = type)
         then (acc + parseFloatNumber (Transaction.amount t))%num
         else acc)
  end.

(** The totals of a list of transactions, in the words of the
    specification: income and expenses are the sums by type, balance is
    their difference. *)
Definition totalsOf (l : list Transaction.t) : Totals.t :=
  {| Totals.income := sumWhere "income" l Number.zero;
     Totals.expenses := sumWhere "expense" l Number.zero;
     Totals.balance :=
       (sumWhere "income" l Number.zero - sumWhere "expense" l Number.zero)%num |}.

(** A run of [addTransaction] calls, each with its clock readings. *)
Definition addAll (this : ExpenseTracker)
    (calls : list (Clock.t * Input.t)) : ExpenseTracker :=
  fold_left (fun st call => addTransaction st (fst call) (snd call)) calls this.

(** The message [handleFormSubmit] shows for the amount field. *)
Definition amountError : string * string :=
  ("amountError", "Please enter a valid amount").

(** The test of the amount field: [!amount || parseFloat(amount) <= 0]. *)
Definition amountRejected (amount : string) : bool :=
  falsy amount || (parseFloat amount <=? Number.zero)%num.

(** The messages one test contributes. *)
Definition when (b : bool) (e : string * string) : list (string * string) :=
  if b then [e] else [].

(** A transaction with the given type and amount, for the examples. *)
Definition sample (id type : string) (amount : Z) : Transaction.t :=
  {| Transaction.id := id;
     Transaction.title := "sample";
     Transaction.amount := Number.of_Z amount;
     Transaction.type := type;
     Transaction.category := "other";
     Transaction.date := "2024-03-01";
     Transaction.timestamp := "2024-03-01T12:00:00.000Z" |}.

(** The two-element ledger of the specification's example. *)
Definition ledger2 : list Transaction.t :=
  [sample "1" "income" 100; sample "2" "expense" 40].

Definition tracker (l : list Transaction.t) (f : Filters.t) : ExpenseTracker :=
  {| transactions := l; currentView := "overview"; filters := f |}.

Definition onlyExpenses : Filters.t :=
  {| Filters.type := "expense"; Filters.category := "all"; Filters.month := "all" |}.

(** What [escapeHtml] makes of one character. *)
Definition escapeOne (c : ascii) : string :=
  if escapePattern c then
    match escapeMap c with
    | Some entity => entity
    | None => "undefined"
    end
  else String c EmptyString.

(** The filtered view of a ledger with the type selector alone set, and
    with the category selector alone set. *)
Definition byType (type : string) (l : list Transaction.t)
  : list Transaction.t :=
  getFilteredTransactions
    (tracker l {| Filters.type := type; Filters.category := "all";
                  Filters.month := "all" |}).

Definition byCategory (category : string) (l : list Transaction.t)
  : list Transaction.t :=
  getFilteredTransactions
    (tracker l {| Filters.type := "all"; Filters.category := category;
                  Filters.month := "all" |}).

(** The transactions of a ledger whose date falls in the month. *)
Definition inMonth (monthLabel : string -> string) (month : string)
    (l : list Transaction.t) : list Transaction.t :=
  List.filter (fun t => monthLabel (Transaction.date t) =? month) l.

Definition zeroTotals : Totals.t :=
  {| Totals.income := Number.zero;
     Totals.expenses := Number.zero;
     Totals.balance := Number.zero |}.

Definition zeroStats : Stats.t :=
  {| Stats.count := 0;
     Stats.income := Number.zero;
     Stats.expenses := Number.zero;
     Stats.net := Number.zero |}.

(** What every transaction made by an accepted form has: a title that is
    not empty and has no white space around it, an amount that is not at
    most 0, and a type, a category and a date that are not empty. *)
Definition fromForm (t : Transaction.t) : Prop :=
  Transaction.title t <> ""
  /\ trim (Transaction.title t) = Transaction.title t
  /\ (Transaction.amount t <=? Number.zero)%num = false
  /\ Transaction.type t <> ""
  /\ Transaction.category t <> ""
  /\ Transaction.date t <> "".

(** What the user can do on the page, with what the host contributes:
    submit the form, press a delete button or the clear button and answer
    the prompt, and change one of the three selectors. *)
Inductive action : Type :=
| Submit (clock : Clock.t) (form : Form.t)
| Delete (confirmed : bool) (id : string)
| ClearAll (confirmed : bool)
| SelectType (value : string)
| SelectCategory (value : string)
| SelectMonth (value : string).

(** The listener [setupEventListeners] (or the delete button's [onclick])
    runs for an action. *)
Definition perform (this : ExpenseTracker) (a : action) : ExpenseTracker :=
  match a with
  | Submit clock form => fst (handleFormSubmit this clock form)
  | Delete confirmed id => deleteTransaction this confirmed id
  | ClearAll confirmed => clearAllTransactions this confirmed
  | SelectType value => typeFilterChange this value
  | SelectCategory value => categoryFilterChange this value
  | SelectMonth value => monthFilterChange this value
  end.

Definition performAll (this : ExpenseTracker) (actions : list action)
  : ExpenseTracker :=
  fold_left perform actions this.

(** A ledger with two transactions in March 2024 and one in April; months
    are labelled by the first seven characters of the date and ordered by
    the number the label's digits spell. *)
Definition ledger3 : list Transaction.t :=
  [sample "1" "income" 100; sample "2" "expense" 40;
   {| Transaction.id := "3"; Transaction.title := "sample";
      Transaction.amount := Number.of_Z 7; Transaction.type := "expense";
      Transaction.category := "food"; Transaction.date := "2024-04-02";
      Transaction.timestamp := "2024-04-02T12:00:00.000Z" |}].

Definition label7 (d : string) : string := substring 0 7 d.

Definition labelTime (label : string) : Number.t :=
  parseFloat (substring 0 4 label ++ substring 5 2 label).

(** The code units of a string. *)
Definition codes (s : string) : list N := map code (chars s).

(** What a saved amount parses to: NaN and the infinities were written as
    [null], either zero as [0]. *)
Definition jsonOfAmount (x : Number.t) : JSON.value :=
  match x with
  | S754_nan | S754_infinity _ => JSON.Null
  | S754_zero _ => JSON.Num Number.zero
  | S754_finite _ _ _ => JSON.Num x
  end.

(** A transaction as a parsed JSON object. *)
Definition jsonOfTransaction (t : Transaction.t) : JSON.value :=
  JSON.Object
    [(codes "id", JSON.Str (codes (Transaction.id t)));
     (codes "title", JSON.Str (codes (Transaction.title t)));
     (codes "amount", jsonOfAmount (Transaction.amount t));
     (codes "type", JSON.Str (codes (Transaction.type t)));
     (codes "category", JSON.Str (codes (Transaction.category t)));
     (codes "date", JSON.Str (codes (Transaction.date t)));
     (codes "timestamp", JSON.Str (codes (Transaction.timestamp t)))].

(** The printed form of a finite, non-zero amount is a JSON number that
    denotes the amount again. *)
Definition readsBack (x : Number.t) : bool :=
  match x with
  | S754_finite _ _ _ =>
      let w := chars (numberToString x) in
      forallb JSON.isWordChar w
      && match JSON.number w with
         | Some y => sameNumber y x
         | None => false
         end
  | _ => true
  end.

(** The lexer run over a piece of text: the state it ends in and the
    tokens it has emitted. *)
Fixpoint lexRun (st : JSON.lexState) (s : list ascii)
  : option (JSON.lexState * list JSON.token) :=
  match s with
  | [] => Some (st, [])
  | c :: s' =>
      match JSON.lexStep st c with
      | Some (st', toks) =>
          match lexRun st' s' with
          | Some (st'', toks') => Some (st'', toks ++ toks')
          | None => None
          end
      | None => None
      end
  end.

(** The tokens of a saved transaction, and of a saved ledger between its
    brackets. *)
Definition tokensOfTransaction (t : Transaction.t) : list JSON.token :=
  [JSON.TLBrace;
   JSON.TString (codes "id"); JSON.TColon;
   JSON.TString (codes (Transaction.id t)); JSON.TComma;
   JSON.TString (codes "title"); JSON.TColon;
   JSON.TString (codes (Transaction.title t)); JSON.TComma;
   JSON.TString (codes "amount"); JSON.TColon;
   JSON.TScalar (jsonOfAmount (Transaction.amount t)); JSON.TComma;
   JSON.TString (codes "type"); JSON.TColon;
   JSON.TString (codes (Transaction.type t)); JSON.TComma;
   JSON.TString (codes "category"); JSON.TColon;
   JSON.TString (codes (Transaction.category t)); JSON.TComma;
   JSON.TString (codes "date"); JSON.TColon;
   JSON.TString (codes (Transaction.date t)); JSON.TComma;
   JSON.TString (codes "timestamp"); JSON.TColon;
   JSON.TString (codes (Transaction.timestamp t));
   JSON.TRBrace].

Fixpoint tokensOfItems (l : list Transaction.t) : list JSON.token :=
  match l with
  | [] => []
  | [t] => tokensOfTransaction t
  | t :: rest => tokensOfTransaction t ++ JSON.TComma :: tokensOfItems rest
  end.

(** A ledger with a title that needs escaping, an amount with a fraction
    and an amount that is no number. *)
Definition ledgerToSave : list Transaction.t :=
  [{| Transaction.id := "1700000000001";
      Transaction.title := "Tom & " ++ dq ++ "Jerry" ++ dq ++ " \ lunch";
      Transaction.amount := Number.of_decimal false 125 (-1);
      Transaction.type := "expense"; Transaction.category := "food";
      Transaction.date := "2024-03-01";
      Transaction.timestamp := "2024-03-01T12:00:00.000Z" |};
   {| Transaction.id := "1700000000000";
      Transaction.title := "Salary";
      Transaction.amount := Number.of_decimal false 1 (-1);
      Transaction.type := "income"; Transaction.category := "salary";
      Transaction.date := "2024-03-01";
      Transaction.timestamp := "2024-03-01T11:00:00.000Z" |};
   {| Transaction.id := "1699999999999";
      Transaction.title := "abc";
      Transaction.amount := Number.NaN;
      Transaction.type := "expense"; Transaction.category := "other";
      Transaction.date := "2024-02-29";
      Transaction.timestamp := "2024-02-29T11:00:00.000Z" |}].

(* ===================================================================== *)
(** ** Basic facts *)
(* ===================================================================== *)

Lemma falsy_empty (s : string) : falsy s = true <-> s = "".
Proof. destruct s; simpl; split; congruence. Qed.

Lemma falsy_nonempty (s : string) : falsy s = false <-> s <> "".
Proof. destruct s; simpl; split; congruence. Qed.

Lemma setTransactions_same (this : ExpenseTracker) :
  setTransactions this (transactions this) = this.
Proof. destruct this; reflexivity. Qed.

Lemma filter_all {A : Type} (p : A -> bool) (l : list A) :
  (forall x, In x l -> p x = true) -> List.filter p l = l.
Proof.
  induction l as [|x l IH]; intros Hall; simpl; [reflexivity|].
  rewrite (Hall x (or_introl eq_refl)).
  f_equal. apply IH. intros y Hy. apply Hall. now right.
Qed.

Lemma filter_idem {A : Type} (p : A -> bool) (l : list A) :
  List.filter p (List.filter p l) = List.filter p l.
Proof.
  apply filter_all. intros x Hx. now apply filter_In in Hx.
Qed.

(** [List.filter] keeps exactly the elements its test accepts, in place. *)
Lemma filter_Kept {A : Type} (p : A -> bool) (P : A -> Prop) (l : list A) :
  (forall x, p x = true <-> P x) -> Kept P l (List.filter p l).
Proof.
  intros Hp. induction l as [|x l IH]; simpl.
  - constructor.
  - destruct (p x) eqn:E.
    + apply Kept_keep; [now apply Hp | exact IH].
    + apply Kept_drop; [|exact IH].
      intros HP. apply Hp in HP. congruence.
Qed.

Lemma Kept_In {A : Type} (P : A -> Prop) (l l' : list A) :
  Kept P l l' -> forall x, In x l' <-> In x l /\ P x.
Proof.
  induction 1 as [|x l l' HP _ IH|x l l' HP _ IH]; intros y; simpl.
  - tauto.
  - rewrite IH. split; [intros [->|[? ?]]; auto | tauto].
  - rewrite IH. split; [tauto | intros [[->|?] ?]; [contradiction | auto]].
Qed.

Lemma Kept_sublist {A : Type} (P : A -> Prop) (l l' : list A) :
  Kept P l l' -> sublist l' l.
Proof.
  induction 1; [constructor | now apply sublist_skip | now apply sublist_cons].
Qed.

(** [Kept] determines its result. *)
Lemma Kept_unique {A : Type} (P : A -> Prop) (l l1 l2 : list A) :
  Kept P l l1 -> Kept P l l2 -> l1 = l2.
Proof.
  intros H1. revert l2.
  induction H1 as [|x l l' HP _ IH|x l l' HP _ IH]; intros l2 H2;
    inversion H2; subst; try contradiction; auto.
  f_equal. now apply IH.
Qed.

Lemma passes_test (f : Filters.t) (t : Transaction.t) :
  ((Filters.type f =? "all") || (Transaction.type t =? Filters.type f))
  && ((Filters.category f =? "all")
      || (Transaction.category t =? Filters.category f)) = true
  <-> passes f t.
Proof.
  unfold passes.
  rewrite andb_true_iff, !orb_true_iff, !String.eqb_eq. reflexivity.
Qed.

(** The filter-then-reduce of the source is the one-pass sum. *)
Lemma fold_filter_sumWhere (type : string) (l : list Transaction.t)
    (acc : Number.t) :
  fold_left
    (fun sum t => (sum + parseFloatNumber (Transaction.amount t))%num)
    (List.filter (fun t => Transaction.type t =? type) l) acc
  = sumWhere type l acc.
Proof.
  revert acc. induction l as [|t l IH]; intros acc; simpl; [reflexivity|].
  destruct (decide (Transaction.type t = type)) as [E|E].
  - apply String.eqb_eq in E. rewrite E. simpl. apply IH.
  - apply String.eqb_neq in E. rewrite E. apply IH.
Qed.

Lemma sumOfType_sumWhere (type : string) (l : list Transaction.t) :
  sumOfType type l = sumWhere type l Number.zero.
Proof. apply fold_filter_sumWhere. Qed.

Lemma calculateTotals_totalsOf (this : ExpenseTracker) :
  calculateTotals this = totalsOf (getFilteredTransactions this).
Proof.
  unfold calculateTotals, totalsOf. now rewrite !sumOfType_sumWhere.
Qed.

Lemma getFilteredTransactions_Kept (this : ExpenseTracker) :
  Kept (passes (filters this)) (transactions this)
    (getFilteredTransactions this).
Proof.
  unfold getFilteredTransactions. apply filter_Kept.
  intros t. apply passes_test.
Qed.

Lemma getFilteredTransactions_all (this : ExpenseTracker) :
  Filters.type (filters this) = "all" ->
  Filters.category (filters this) = "all" ->
  getFilteredTransactions this = transactions this.
Proof.
  intros Ht Hc. unfold getFilteredTransactions.
  apply filter_all. intros t _. rewrite Ht, Hc. reflexivity.
Qed.

Lemma zero_minus_zero : (Number.zero - Number.zero)%num = Number.zero.
Proof. reflexivity. Qed.

(* ===================================================================== *)
(** ** The host functions at a few inputs *)
(* ===================================================================== *)

Example parseFloat_decimals :
  parseFloat "100" = Number.of_Z 100
  /\ parseFloat "  -5" = Number.of_Z (-5)
  /\ parseFloat "0.01" = Number.of_decimal false 1 (-2)
  /\ parseFloat "1.5e3kg" = Number.of_Z 1500
  /\ parseFloat "-0" = S754_zero true
  /\ parseFloat "1e-400" = Number.zero
  /\ parseFloat "1e400" = Number.Infinity.
Proof. repeat split; vm_compute; reflexivity. Qed.

Example parseFloat_not_a_number :
  parseFloat "abc" = Number.NaN
  /\ parseFloat "" = Number.NaN
  /\ parseFloat "." = Number.NaN
  /\ parseFloat "-" = Number.NaN
  /\ parseFloat "e5" = Number.NaN.
Proof. repeat split; vm_compute; reflexivity. Qed.

(** One cent is the binary64 value 5764607523034235 * 2^-59, and it is
    above 0; NaN is not at most 0. *)
Example one_cent :
  Number.of_decimal false 1 (-2) = S754_finite false 5764607523034235 (-59)
  /\ (Number.of_decimal false 1 (-2) <=? Number.zero)%num = false
  /\ (Number.NaN <=? Number.zero)%num = false
  /\ (Number.of_Z (-5) <=? Number.zero)%num = true.
Proof. repeat split; vm_compute; reflexivity. Qed.

Example parse_well_formed :
  JSON.parse "[]" = Return (JSON.Array [])
  /\ JSON.parse " [1, 2.5e1, true, null] "
     = Return (JSON.Array [JSON.Num (Number.of_Z 1); JSON.Num (Number.of_Z 25);
                           JSON.Bool true; JSON.Null])
  /\ JSON.parse "{}" = Return (JSON.Object [])
  /\ JSON.parse "[[],{}]"
     = Return (JSON.Array [JSON.Array []; JSON.Object []]).
Proof. repeat split; vm_compute; reflexivity. Qed.

Example parse_malformed :
  JSON.parse "oops" = Throw SyntaxError
  /\ JSON.parse "[1,]" = Throw SyntaxError
  /\ JSON.parse "[1" = Throw SyntaxError
  /\ JSON.parse "01" = Throw SyntaxError
  /\ JSON.parse "{id:1}" = Throw SyntaxError
  /\ JSON.parse "undefined" = Throw SyntaxError
  /\ JSON.parse "[] []" = Throw SyntaxError.
Proof. repeat split; vm_compute; reflexivity. Qed.

Example toString_clock : toString 1700000000000 = "1700000000000".
Proof. reflexivity. Qed.

Example trim_title : trim "  Lunch out " = "Lunch out" /\ trim "   " = "".
Proof. split; reflexivity. Qed.

(* ===================================================================== *)
(** ** Totals, monthly statistics and the filtered view *)
(* ===================================================================== *)

(** The specification's example, for any two transactions with these
    types and amounts, under selectors that are both "all". *)
Lemma calculateTotals_example (t1 t2 : Transaction.t) (f : Filters.t) :
  Transaction.type t1 = "income" ->
  Transaction.amount t1 = Number.of_Z 100 ->
  Transaction.type t2 = "expense" ->
  Transaction.amount t2 = Number.of_Z 40 ->
  Filters.type f = "all" ->
  Filters.category f = "all" ->
  calculateTotals (tracker [t1; t2] f)
  = {| Totals.income := Number.of_Z 100;
       Totals.expenses := Number.of_Z 40;
       Totals.balance := Number.of_Z 60 |}.
Proof.
  intros Ht1 Ha1 Ht2 Ha2 Hf Hc.
  rewrite calculateTotals_totalsOf, getFilteredTransactions_all by assumption.
  unfold totalsOf; simpl.
  rewrite Ht1, Ht2, Ha1, Ha2. reflexivity.
Qed.

(** C1, as stated, fails: with the type selector on "expense" the
    two-element example has income 0, expenses 40 and balance -40, not the
    totals of the whole ledger. *)
Lemma calculateTotals_onlyExpenses_ledger2 :
  calculateTotals (tracker ledger2 onlyExpenses)
  = {| Totals.income := Number.zero;
       Totals.expenses := Number.of_Z 40;
       Totals.balance := Number.of_Z (-40) |}
  /\ totalsOf (transactions (tracker ledger2 onlyExpenses))
     = {| Totals.income := Number.of_Z 100;
          Totals.expenses := Number.of_Z 40;
          Totals.balance := Number.of_Z 60 |}
  /\ calculateTotals (tracker ledger2 onlyExpenses)
     <> totalsOf (transactions (tracker ledger2 onlyExpenses)).
Proof.
  assert (E1 : calculateTotals (tracker ledger2 onlyExpenses)
               = {| Totals.income := Number.zero;
                    Totals.expenses := Number.of_Z 40;
                    Totals.balance := Number.of_Z (-40) |})
    by (vm_compute; reflexivity).
  assert (E2 : totalsOf (transactions (tracker ledger2 onlyExpenses))
               = {| Totals.income := Number.of_Z 100;
                    Totals.expenses := Number.of_Z 40;
                    Totals.balance := Number.of_Z 60 |})
    by (vm_compute; reflexivity).
  split; [exact E1 | split; [exact E2 |]].
  rewrite E1, E2. vm_compute. discriminate.
Qed.

(** C1 (amended): [calculateTotals] sums over the view the type and
    category selectors leave. Its income is the sum of the amounts of the
    transactions of that view whose type is "income", its expenses the sum
    for type "expense", its balance income minus expenses. An empty ledger
    gives three zeros; with both selectors on "all" the view is the whole
    ledger, and the two-element example gives 100, 40 and 60. *)
Theorem calculateTotals_sums_filtered_view (this : ExpenseTracker) :
  let view := getFilteredTransactions this in
  let totals := calculateTotals this in
  Kept (passes (filters this)) (transactions this) view
  /\ Totals.income totals = sumWhere "income" view Number.zero
  /\ Totals.expenses totals = sumWhere "expense" view Number.zero
  /\ Totals.balance totals
     = (Totals.income totals - Totals.expenses totals)%num
  /\ (transactions this = [] ->
      totals = {| Totals.income := Number.zero;
                  Totals.expenses := Number.zero;
                  Totals.balance := Number.zero |})
  /\ (Filters.type (filters this) = "all" ->
      Filters.category (filters this) = "all" ->
      totals = totalsOf (transactions this))
  /\ (forall t1 t2 : Transaction.t,
        Filters.type (filters this) = "all" ->
        Filters.category (filters this) = "all" ->
        Transaction.type t1 = "income" ->
        Transaction.amount t1 = Number.of_Z 100 ->
        Transaction.type t2 = "expense" ->
        Transaction.amount t2 = Number.of_Z 40 ->
        calculateTotals (setTransactions this [t1; t2])
        = {| Totals.income := Number.of_Z 100;
             Totals.expenses := Number.of_Z 40;
             Totals.balance := Number.of_Z 60 |}).
Proof.
  intros view totals. subst view totals.
  split; [apply getFilteredTransactions_Kept|].
  rewrite calculateTotals_totalsOf.
  split; [reflexivity|]. split; [reflexivity|]. split; [reflexivity|].
  split; [|split].
  - intros Hnil. unfold getFilteredTransactions. rewrite Hnil. reflexivity.
  - intros Ht Hc. now rewrite getFilteredTransactions_all.
  - intros t1 t2 Ht Hc Ht1 Ha1 Ht2 Ha2.
    destruct this as [l v f]. simpl in Ht, Hc.
    now apply (calculateTotals_example t1 t2 f).
Qed.

(** C3: whatever the selectors are set to, [calculateMonthlyStats("all")]
    agrees with the totals of the whole, unfiltered ledger (what
    [calculateTotals] returns once the selectors are back on "all"): its
    count is the length of the ledger, its income and expenses are the
    totals' income and expenses, and its net is the totals' balance. *)
Theorem calculateMonthlyStats_all_is_totals
    (monthLabel : string -> string) (this : ExpenseTracker) :
  let stats := calculateMonthlyStats monthLabel this "all" in
  let totals := calculateTotals (setFilters this noFilter) in
  Stats.count stats = length (transactions this)
  /\ Stats.income stats = Totals.income totals
  /\ Stats.expenses stats = Totals.expenses totals
  /\ Stats.net stats = Totals.balance totals
  /\ totals = totalsOf (transactions this).
Proof.
  intros stats totals.
  assert (Hview : getFilteredTransactions (setFilters this noFilter)
                  = transactions this)
    by (now rewrite getFilteredTransactions_all).
  assert (Htot : totals = totalsOf (transactions this)).
  { subst totals. now rewrite calculateTotals_totalsOf, Hview. }
  rewrite Htot. subst stats.
  unfold calculateMonthlyStats, totalsOf; simpl.
  rewrite !sumOfType_sumWhere. repeat split; reflexivity.
Qed.

(** C6: the filtered view keeps a transaction exactly when it passes the
    type selector ("all" or its own type) and the category selector ("all"
    or its own category), keeps the transactions it keeps in their order,
    and does not depend on the month selector. *)
Theorem getFilteredTransactions_keeps_passing (this : ExpenseTracker) :
  let view := getFilteredTransactions this in
  Kept (passes (filters this)) (transactions this) view
  /\ (forall t, In t view <-> In t (transactions this) /\ passes (filters this) t)
  /\ sublist view (transactions this)
  /\ (forall month : string,
        getFilteredTransactions
          (setFilters this
             {| Filters.type := Filters.type (filters this);
                Filters.category := Filters.category (filters this);
                Filters.month := month |})
        = view).
Proof.
  intros view. subst view.
  pose proof (getFilteredTransactions_Kept this) as HK.
  split; [exact HK|]. split; [|split].
  - now apply Kept_In.
  - eapply Kept_sublist, HK.
  - intros month. reflexivity.
Qed.

(* ===================================================================== *)
(** ** Adding transactions *)
(* ===================================================================== *)

Lemma addTransaction_unshift (this : ExpenseTracker) (clock : Clock.t)
    (transaction : Input.t) :
  transactions (addTransaction this clock transaction)
  = newTransaction clock transaction :: transactions this.
Proof. reflexivity. Qed.

Lemma addAll_transactions (calls : list (Clock.t * Input.t))
    (this : ExpenseTracker) :
  transactions (addAll this calls)
  = rev (map (fun call => newTransaction (fst call) (snd call)) calls)
    ++ transactions this.
Proof.
  revert this. induction calls as [|call calls IH]; intros this.
  - reflexivity.
  - unfold addAll in *. simpl. rewrite IH, addTransaction_unshift.
    now rewrite <- app_assoc.
Qed.

(** Decimal printing tells numbers apart. *)
Lemma toString_inj (m n : N) : toString m = toString n -> m = n.
Proof.
  unfold toString, NilZero.string_of_uint. intros H.
  apply Unsigned.to_uint_inj.
  assert (Hnil : forall k, N.to_uint k <> Nil).
  { intros [|p]; [discriminate|]. simpl. apply DecimalPos.Unsigned.to_uint_nonnil. }
  destruct (N.to_uint m) eqn:Em; try (now apply Hnil in Em);
    destruct (N.to_uint n) eqn:En; try (now apply Hnil in En);
    rewrite <- Em, <- En;
    apply (f_equal NilEmpty.uint_of_string) in H;
    rewrite !NilEmpty.usu in H; congruence.
Qed.

(** An add whose clock reading is not yet an id keeps the ids distinct. *)
Lemma addTransaction_fresh_id (this : ExpenseTracker) (clock : Clock.t)
    (transaction : Input.t) :
  List.NoDup (map Transaction.id (transactions this)) ->
  ~ In (toString (Clock.now clock)) (map Transaction.id (transactions this)) ->
  List.NoDup (map Transaction.id
                (transactions (addTransaction this clock transaction))).
Proof.
  intros Hnd Hfresh. rewrite addTransaction_unshift. simpl.
  apply List.NoDup_cons_iff. auto.
Qed.

(** A run of adds whose clock readings differ from each other and from
    the ids already there keeps the ids distinct. *)
Lemma addAll_distinct_readings (calls : list (Clock.t * Input.t))
    (this : ExpenseTracker) :
  List.NoDup (map Transaction.id (transactions this)) ->
  List.NoDup (map (fun call => Clock.now (fst call)) calls) ->
  (forall call, In call calls ->
     ~ In (toString (Clock.now (fst call)))
          (map Transaction.id (transactions this))) ->
  List.NoDup (map Transaction.id (transactions (addAll this calls))).
Proof.
  revert this. induction calls as [|call calls IH]; intros this Hnd Hnow Hfresh.
  - exact Hnd.
  - change (addAll this (call :: calls))
      with (addAll (addTransaction this (fst call) (snd call)) calls).
    apply List.NoDup_cons_iff in Hnow as [Hhead Hnow].
    apply IH; [|exact Hnow|].
    + apply addTransaction_fresh_id; [exact Hnd|].
      apply Hfresh. now left.
    + intros call' Hin [E|Hold]; simpl in *.
      * apply toString_inj in E. apply Hhead. rewrite E.
        now apply (in_map (fun c => Clock.now (fst c))).
      * apply (Hfresh call'); [now right | exact Hold].
Qed.

(** C2 fails on the code: the id is the clock reading, so two adds that
    read the same millisecond store two transactions with one id. *)
Theorem addTransaction_same_instant_shares_id
    (this : ExpenseTracker) (now : N) (iso1 iso2 : string)
    (first second : Input.t) :
  let clock1 := {| Clock.now := now; Clock.toISOString := iso1 |} in
  let clock2 := {| Clock.now := now; Clock.toISOString := iso2 |} in
  let this' := addTransaction (addTransaction this clock1 first) clock2 second in
  transactions this'
  = newTransaction clock2 second :: newTransaction clock1 first
      :: transactions this
  /\ Transaction.id (newTransaction clock2 second)
     = Transaction.id (newTransaction clock1 first)
  /\ ~ List.NoDup (map Transaction.id (transactions this')).
Proof.
  intros clock1 clock2 this'. subst this'.
  rewrite !addTransaction_unshift.
  split; [reflexivity|]. split; [reflexivity|].
  simpl. intros Hnd. apply List.NoDup_cons_iff in Hnd as [Hnotin _].
  apply Hnotin. now left.
Qed.

(** C7: an add puts the new transaction first and leaves the others as
    they were, in their order; so after any run of adds the ledger lists
    the added transactions last-added first, before the earlier ones. The
    [date] field has no part in it: the dates come out in the reverse of
    the order of the calls, as for 2020-01-01, 2099-01-01, 2010-01-01. *)
Theorem addTransaction_most_recent_first :
  (forall this clock transaction,
      transactions (addTransaction this clock transaction)
      = newTransaction clock transaction :: transactions this)
  /\ (forall this calls,
        transactions (addAll this calls)
        = rev (map (fun call => newTransaction (fst call) (snd call)) calls)
          ++ transactions this)
  /\ (forall this calls,
        map Transaction.date (transactions (addAll this calls))
        = rev (map (fun call => Input.date (snd call)) calls)
          ++ map Transaction.date (transactions this))
  /\ (forall this c1 c2 c3 i1 i2 i3,
        Input.date i1 = "2020-01-01" ->
        Input.date i2 = "2099-01-01" ->
        Input.date i3 = "2010-01-01" ->
        transactions this = [] ->
        map Transaction.date
          (transactions (addAll this [(c1, i1); (c2, i2); (c3, i3)]))
        = ["2010-01-01"; "2099-01-01"; "2020-01-01"]).
Proof.
  split; [exact addTransaction_unshift|].
  split; [intros; apply addAll_transactions|].
  assert (Hdates : forall this calls,
             map Transaction.date (transactions (addAll this calls))
             = rev (map (fun call => Input.date (snd call)) calls)
               ++ map Transaction.date (transactions this)).
  { intros this calls. rewrite addAll_transactions, map_app, map_rev, map_map.
    reflexivity. }
  split; [exact Hdates|].
  intros this c1 c2 c3 i1 i2 i3 H1 H2 H3 Hnil.
  rewrite Hdates, Hnil. simpl. now rewrite H1, H2, H3.
Qed.

(* ===================================================================== *)
(** ** Deleting and clearing *)
(* ===================================================================== *)

Lemma deleteTransaction_Kept (this : ExpenseTracker) (id : string) :
  Kept (fun t => Transaction.id t <> id) (transactions this)
    (transactions (deleteTransaction this true id)).
Proof.
  simpl. apply filter_Kept. intros t.
  rewrite negb_true_iff. apply String.eqb_neq.
Qed.

Lemma deleteTransaction_absent (this : ExpenseTracker) (confirmed : bool)
    (id : string) :
  ~ In id (map Transaction.id (transactions this)) ->
  deleteTransaction this confirmed id = this.
Proof.
  intros Habsent. destruct confirmed; simpl; [|reflexivity].
  rewrite filter_all; [apply setTransactions_same|].
  intros t Ht. apply negb_true_iff, String.eqb_neq. intros E.
  apply Habsent. rewrite <- E. now apply in_map.
Qed.

Lemma deleteTransaction_idempotent (this : ExpenseTracker)
    (confirmed : bool) (id : string) :
  deleteTransaction (deleteTransaction this confirmed id) confirmed id
  = deleteTransaction this confirmed id.
Proof.
  destruct confirmed; simpl; [|reflexivity].
  unfold setTransactions; simpl. now rewrite filter_idem.
Qed.

Lemma clearAllTransactions_idempotent (this : ExpenseTracker)
    (confirmed : bool) :
  clearAllTransactions (clearAllTransactions this confirmed) confirmed
  = clearAllTransactions this confirmed.
Proof. destruct confirmed; reflexivity. Qed.

(** C8: deleting an id that no transaction has leaves the tracker as it
    was; deleting the same id again, or clearing again, changes nothing
    more; and on an empty ledger both leave the tracker as it was. Both
    operations are total: they always return a tracker. *)
Theorem delete_and_clear_idempotent :
  (forall this confirmed id,
      ~ In id (map Transaction.id (transactions this)) ->
      deleteTransaction this confirmed id = this)
  /\ (forall this confirmed id,
        deleteTransaction (deleteTransaction this confirmed id) confirmed id
        = deleteTransaction this confirmed id)
  /\ (forall this confirmed,
        clearAllTransactions (clearAllTransactions this confirmed) confirmed
        = clearAllTransactions this confirmed)
  /\ (forall this confirmed id,
        transactions this = [] ->
        deleteTransaction this confirmed id = this
        /\ clearAllTransactions this confirmed = this).
Proof.
  split; [exact deleteTransaction_absent|].
  split; [exact deleteTransaction_idempotent|].
  split; [exact clearAllTransactions_idempotent|].
  intros this confirmed id Hnil. split.
  - apply deleteTransaction_absent. now rewrite Hnil.
  - destruct confirmed; simpl; [|reflexivity].
    rewrite <- Hnil. apply setTransactions_same.
Qed.

(** C9: a delete, once confirmed, removes every transaction with the given
    id, however many there are, and keeps all the others, in their order;
    the view and the selectors are untouched. (A delete the user declines
    changes nothing.) *)
Theorem deleteTransaction_removes_all_matches (this : ExpenseTracker)
    (id : string) :
  let this' := deleteTransaction this true id in
  Kept (fun t => Transaction.id t <> id) (transactions this) (transactions this')
  /\ (forall t, In t (transactions this') ->
                In t (transactions this) /\ Transaction.id t <> id)
  /\ (forall t, In t (transactions this) -> Transaction.id t <> id ->
                In t (transactions this'))
  /\ ~ In id (map Transaction.id (transactions this'))
  /\ sublist (transactions this') (transactions this)
  /\ filters this' = filters this
  /\ currentView this' = currentView this
  /\ deleteTransaction this false id = this.
Proof.
  intros this'. subst this'.
  pose proof (deleteTransaction_Kept this id) as HK.
  pose proof (Kept_In _ _ _ HK) as Hin.
  split; [exact HK|].
  split; [intros t Ht; now apply Hin|].
  split; [intros t Ht Hne; apply Hin; now split|].
  split.
  - intros Hid. apply in_map_iff in Hid as (t & Et & Ht).
    apply Hin in Ht as [_ Hne]. contradiction.
  - split; [eapply Kept_sublist, HK|]. repeat split.
Qed.

(* ===================================================================== *)
(** ** Loading *)
(* ===================================================================== *)

Lemma parse_empty : JSON.parse "" = Throw SyntaxError.
Proof. reflexivity. Qed.

(** C4, as stated, fails: a stored text that is not JSON makes
    [loadTransactions] throw, and a stored JSON text that is not an array
    is returned as it is. *)
Lemma loadTransactions_corrupt_throws :
  loadTransactions {[ "transactions" := "{oops" ]} = Throw SyntaxError
  /\ loadTransactions {[ "transactions" := "{oops" ]} <> Return (JSON.Array [])
  /\ loadTransactions {[ "transactions" := "42" ]}
     = Return (JSON.Num (Number.of_Z 42)).
Proof.
  unfold loadTransactions. rewrite !lookup_singleton_eq. simpl.
  split; [reflexivity|]. split; [|reflexivity].
  change (JSON.parse "{oops") with (@Throw JSON.value SyntaxError).
  discriminate.
Qed.

(** C4 (amended): [loadTransactions] returns the empty array when nothing
    is stored under the key or the stored text is empty. Any other stored
    text goes to [JSON.parse]: what it returns is returned, of whatever
    shape, and the SyntaxError it throws on a text that is not JSON
    reaches the caller. *)
Theorem loadTransactions_cases (localStorage : gmap string string) :
  let data := localStorage !! "transactions" in
  (data = None \/ data = Some "" ->
   loadTransactions localStorage = Return (JSON.Array []))
  /\ (forall text, data = Some text -> text <> "" ->
        loadTransactions localStorage = JSON.parse text)
  /\ (forall e, loadTransactions localStorage = Throw e <->
        exists text, data = Some text /\ text <> ""
                     /\ JSON.parse text = Throw e)
  /\ (forall v, loadTransactions localStorage = Return v <->
        ((data = None \/ data = Some "") /\ v = JSON.Array [])
        \/ exists text, data = Some text /\ text <> ""
                        /\ JSON.parse text = Return v).
Proof.
  intros data. subst data. unfold loadTransactions.
  destruct (localStorage !! "transactions") as [text|] eqn:E.
  - destruct (falsy text) eqn:Hn.
    + apply falsy_empty in Hn. subst text.
      split; [reflexivity|]. split; [intros text [= <-] Hne; contradiction|].
      split.
      * intros e. split; [discriminate|].
        intros (text & [= <-] & Hne & _). contradiction.
      * intros v. split.
        -- intros [= <-]. left. split; [now right | reflexivity].
        -- intros [[_ ->]|(text & [= <-] & Hne & _)];
             [reflexivity | contradiction].
    + apply falsy_nonempty in Hn.
      split; [intros [H|[= H]]; [discriminate | contradiction]|].
      split; [now intros text' [= <-] _|].
      split.
      * intros e. split; [intros H; exists text; auto|].
        now intros (text' & [= <-] & _ & H).
      * intros v. split; [intros H; right; exists text; auto|].
        intros [[[H|[= H]] _]|(text' & [= <-] & _ & H)];
          [discriminate | contradiction | exact H].
  - split; [reflexivity|]. split; [discriminate|]. split.
    + intros e. split; [discriminate | now intros (text & H & _)].
    + intros v. split.
      * intros [= <-]. left. split; [now left | reflexivity].
      * intros [[_ ->]|(text & H & _)]; [reflexivity | discriminate].
Qed.

(* ===================================================================== *)
(** ** The form handler *)
(* ===================================================================== *)

(** [validate] in closed form: one message per failed test, in the order
    of the tests, and [isValid] when none failed. *)
Lemma validate_closed_form (form : Form.t) :
  validate form
  = (negb (falsy (trim (Form.title form))
           || amountRejected (Form.amount form)
           || falsy (Form.type form)
           || falsy (Form.category form)
           || falsy (Form.date form)),
     when (falsy (trim (Form.title form))) ("titleError", "Title is required")
       ++ when (amountRejected (Form.amount form)) amountError
       ++ when (falsy (Form.type form)) ("typeError", "Please select a type")
       ++ when (falsy (Form.category form))
            ("categoryError", "Please select a category")
       ++ when (falsy (Form.date form)) ("dateError", "Date is required")).
Proof.
  unfold validate, amountRejected.
  destruct (falsy (trim (Form.title form)));
    destruct (falsy (Form.amount form) || (parseFloat (Form.amount form) <=? Number.zero)%num);
    destruct (falsy (Form.type form));
    destruct (falsy (Form.category form));
    destruct (falsy (Form.date form)); reflexivity.
Qed.

Lemma amountError_shown (form : Form.t) :
  In amountError (snd (validate form))
  <-> amountRejected (Form.amount form) = true.
Proof.
  rewrite validate_closed_form. simpl. unfold when, amountError.
  destruct (falsy (trim (Form.title form)));
    destruct (amountRejected (Form.amount form));
    destruct (falsy (Form.type form));
    destruct (falsy (Form.category form));
    destruct (falsy (Form.date form)); simpl;
    (split; [intros H; try reflexivity;
             repeat (destruct H as [H|H]; [discriminate H|]); destruct H
            | intros H; try discriminate H; auto 6]).
Qed.

Lemma handleFormSubmit_shown (this : ExpenseTracker) (clock : Clock.t)
    (form : Form.t) :
  snd (handleFormSubmit this clock form) = snd (validate form).
Proof.
  unfold handleFormSubmit. destruct (validate form) as [[|] shown]; reflexivity.
Qed.

(** A rejected submission leaves the tracker as it was. *)
Lemma handleFormSubmit_rejected (this : ExpenseTracker) (clock : Clock.t)
    (form : Form.t) :
  fst (validate form) = false ->
  fst (handleFormSubmit this clock form) = this.
Proof.
  unfold handleFormSubmit. destruct (validate form) as [[|] shown];
    [discriminate | reflexivity].
Qed.

(** An accepted submission adds the parsed input. *)
Lemma handleFormSubmit_accepted (this : ExpenseTracker) (clock : Clock.t)
    (form : Form.t) :
  fst (validate form) = true ->
  handleFormSubmit this clock form
  = (addTransaction this clock
       {| Input.title := trim (Form.title form);
          Input.amount := parseFloat (Form.amount form);
          Input.type := Form.type form;
          Input.category := Form.category form;
          Input.date := Form.date form |},
     []).
Proof.
  intros Hv. unfold handleFormSubmit.
  pose proof (validate_closed_form form) as Hc.
  destruct (validate form) as [isValid shown]. simpl in Hv. subst isValid.
  injection Hc as Hvalid Hshown. symmetry in Hvalid.
  apply negb_true_iff in Hvalid.
  repeat (apply orb_false_iff in Hvalid as [Hvalid ?]).
  simpl. f_equal. subst shown.
  repeat match goal with H : _ = false |- _ => rewrite H; clear H end.
  reflexivity.
Qed.

(** An empty title, also one of white space only, and the amounts 0 and
    -5 are rejected; the ledger stays as it was. *)
Lemma handleFormSubmit_rejects (this : ExpenseTracker) (clock : Clock.t)
    (form : Form.t) :
  trim (Form.title form) = ""
  \/ Form.amount form = "0" \/ Form.amount form = "-5" ->
  fst (handleFormSubmit this clock form) = this
  /\ snd (handleFormSubmit this clock form) <> [].
Proof.
  intros H.
  assert (Hinvalid : falsy (trim (Form.title form)) = true
                     \/ amountRejected (Form.amount form) = true).
  { destruct H as [H|[H|H]]; rewrite H; auto. }
  split.
  - apply handleFormSubmit_rejected. rewrite validate_closed_form. simpl.
    apply negb_false_iff. destruct Hinvalid as [-> | ->]; [reflexivity|].
    now rewrite orb_true_r.
  - rewrite handleFormSubmit_shown, validate_closed_form. simpl.
    destruct Hinvalid as [-> | ->]; [discriminate|].
    destruct (falsy (trim (Form.title form))); discriminate.
Qed.

(** The amount 0.01 passes the test of the amount field. *)
Lemma amount_one_cent_accepted : amountRejected "0.01" = false.
Proof. vm_compute. reflexivity. Qed.

(** C5 fails on the code: the amount "abc" is no number, yet the form is
    accepted and a transaction whose amount is NaN is added. So is
    "Infinity", which is not finite. *)
Theorem handleFormSubmit_accepts_non_numeric_amount
    (this : ExpenseTracker) (clock : Clock.t) :
  let form amount :=
    {| Form.title := "Lunch"; Form.amount := amount;
       Form.type := "expense"; Form.category := "food";
       Form.date := "2024-03-01" |} in
  let added amount :=
    {| Input.title := "Lunch"; Input.amount := amount;
       Input.type := "expense"; Input.category := "food";
       Input.date := "2024-03-01" |} in
  handleFormSubmit this clock (form "abc")
  = (addTransaction this clock (added Number.NaN), [])
  /\ handleFormSubmit this clock (form "Infinity")
     = (addTransaction this clock (added Number.Infinity), []).
Proof.
  intros form added. split;
    (rewrite handleFormSubmit_accepted; [reflexivity | vm_compute; reflexivity]).
Qed.

(** C10: the message of the amount field is shown exactly when the amount
    is empty or [parseFloat] of it is at most 0. A non-empty amount that
    [parseFloat] reads as NaN passes; when the other fields are filled in
    too, no message is shown and a transaction whose amount is NaN is put
    first in the ledger. *)
Theorem amount_validation_lets_NaN_through
    (this : ExpenseTracker) (clock : Clock.t) (form : Form.t) :
  let amount := Form.amount form in
  let result := handleFormSubmit this clock form in
  (In amountError (snd result)
   <-> amount = "" \/ (parseFloat amount <=? Number.zero)%num = true)
  /\ (amount <> "" -> parseFloat amount = Number.NaN ->
      ~ In amountError (snd result)
      /\ (trim (Form.title form) <> "" -> Form.type form <> "" ->
          Form.category form <> "" -> Form.date form <> "" ->
          snd result = []
          /\ exists t,
               transactions (fst result) = t :: transactions this
               /\ Transaction.amount t = Number.NaN)).
Proof.
  intros amount result. subst amount result.
  assert (Hshown : In amountError (snd (handleFormSubmit this clock form))
                   <-> Form.amount form = ""
                       \/ (parseFloat (Form.amount form) <=? Number.zero)%num = true).
  { rewrite handleFormSubmit_shown, amountError_shown.
    unfold amountRejected. now rewrite orb_true_iff, falsy_empty. }
  split; [exact Hshown|].
  intros Hne HNaN.
  assert (Hpass : amountRejected (Form.amount form) = false).
  { unfold amountRejected. rewrite HNaN.
    apply falsy_nonempty in Hne. now rewrite Hne. }
  split.
  - rewrite handleFormSubmit_shown, amountError_shown, Hpass. discriminate.
  - intros Htitle Htype Hcat Hdate.
    rewrite handleFormSubmit_accepted.
    + simpl. split; [reflexivity|]. eexists. split; [reflexivity|]. exact HNaN.
    + rewrite validate_closed_form. simpl. rewrite Hpass.
      apply falsy_nonempty in Htitle, Htype, Hcat, Hdate.
      now rewrite Htitle, Htype, Hcat, Hdate.
Qed.

(** The amount "abc" is such an input. *)
Lemma amount_validation_abc :
  let form :=
    {| Form.title := "Lunch"; Form.amount := "abc";
       Form.type := "expense"; Form.category := "food";
       Form.date := "2024-03-01" |} in
  let clock := {| Clock.now := 1700000000000%N;
                  Clock.toISOString := "2023-11-14T22:13:20.000Z" |} in
  let result := handleFormSubmit (tracker [] noFilter) clock form in
  ~ In amountError (snd result)
  /\ snd result = []
  /\ exists t,
       transactions (fst result) = [t] /\ Transaction.amount t = Number.NaN.
Proof.
  intros form clock result.
  destruct (amount_validation_lets_NaN_through (tracker [] noFilter) clock form)
    as [_ H].
  destruct H as [Hnot Hadd]; [discriminate | reflexivity |].
  destruct Hadd as [Hshown Ht]; [vm_compute; discriminate | discriminate ..|].
  split; [exact Hnot|]. split; [exact Hshown | exact Ht].
Defined.

(* ===================================================================== *)
(** ** The theorems at concrete inputs *)
(* ===================================================================== *)

(** C1 at the two-element example and at an empty ledger. *)
Lemma calculateTotals_sums_filtered_view_ledger2 :
  calculateTotals (tracker ledger2 noFilter) = totalsOf ledger2
  /\ calculateTotals (tracker ledger2 noFilter)
     = {| Totals.income := Number.of_Z 100;
          Totals.expenses := Number.of_Z 40;
          Totals.balance := Number.of_Z 60 |}
  /\ calculateTotals (tracker [] onlyExpenses)
     = {| Totals.income := Number.zero;
          Totals.expenses := Number.zero;
          Totals.balance := Number.zero |}.
Proof.
  destruct (calculateTotals_sums_filtered_view (tracker ledger2 noFilter))
    as (_ & _ & _ & _ & _ & Hall & Hexample).
  destruct (calculateTotals_sums_filtered_view (tracker [] onlyExpenses))
    as (_ & _ & _ & _ & Hempty & _).
  split; [apply Hall; reflexivity|].
  split; [|apply Hempty; reflexivity].
  apply (Hexample (sample "1" "income" 100) (sample "2" "expense" 40));
    reflexivity.
Defined.

(** C4 at an empty store and at a store that holds an empty array. *)
Lemma loadTransactions_cases_fresh_store :
  loadTransactions ∅ = Return (JSON.Array [])
  /\ loadTransactions {[ "transactions" := "[]" ]} = JSON.parse "[]".
Proof.
  destruct (loadTransactions_cases ∅) as (Hnone & _).
  destruct (loadTransactions_cases {[ "transactions" := "[]" ]})
    as (_ & Hsome & _).
  split.
  - apply Hnone. left. reflexivity.
  - apply Hsome; [apply lookup_singleton_eq | discriminate].
Defined.

(** C7 at the three dates of the specification. *)
Lemma addTransaction_most_recent_first_three_dates :
  let clock n := {| Clock.now := n; Clock.toISOString := "" |} in
  let input d :=
    {| Input.title := "t"; Input.amount := Number.of_Z 1;
       Input.type := "expense"; Input.category := "other";
       Input.date := d |} in
  map Transaction.date
    (transactions
       (addAll (tracker [] noFilter)
          [(clock 1%N, input "2020-01-01");
           (clock 2%N, input "2099-01-01");
           (clock 3%N, input "2010-01-01")]))
  = ["2010-01-01"; "2099-01-01"; "2020-01-01"].
Proof.
  intros clock input.
  destruct addTransaction_most_recent_first as (_ & _ & _ & Hthree).
  apply Hthree; reflexivity.
Defined.

(** C8 at the two-element ledger and an id it does not hold. *)
Lemma delete_and_clear_idempotent_absent_id :
  deleteTransaction (tracker ledger2 noFilter) true "3"
  = tracker ledger2 noFilter
  /\ deleteTransaction (tracker [] noFilter) true "3" = tracker [] noFilter.
Proof.
  destruct delete_and_clear_idempotent as (Habsent & _ & _ & Hempty).
  split.
  - apply Habsent. simpl. intros [H|[H|[]]]; discriminate.
  - apply (Hempty (tracker [] noFilter) true "3"). reflexivity.
Defined.

(** C9 at a ledger in which two transactions share the id deleted. *)
Lemma deleteTransaction_removes_all_matches_twice :
  let l := [sample "7" "income" 1; sample "8" "expense" 2;
            sample "7" "expense" 3] in
  transactions (deleteTransaction (tracker l noFilter) true "7")
  = [sample "8" "expense" 2].
Proof.
  intros l.
  destruct (deleteTransaction_removes_all_matches (tracker l noFilter) "7")
    as (HK & _).
  eapply Kept_unique; [exact HK|].
  apply Kept_drop; [intros H; now apply H|].
  apply Kept_keep; [discriminate|].
  apply Kept_drop; [intros H; now apply H|].
  constructor.
Defined.

(* ===================================================================== *)
(** ** [escapeHtml] *)
(* ===================================================================== *)

Local Arguments String.append : simpl nomatch.

Lemma chars_app (a b : string) : chars (a ++ b) = chars a ++ chars b.
Proof.
  unfold chars. induction a as [|c a IH]; simpl; [reflexivity|].
  now rewrite IH.
Qed.

Lemma string_app_nil_r (a : string) : (a ++ "")%string = a.
Proof. induction a as [|c a IH]; simpl; [reflexivity | now rewrite IH]. Qed.

Lemma string_app_assoc' (a b c : string) :
  ((a ++ b) ++ c)%string = (a ++ (b ++ c))%string.
Proof. induction a as [|x a IH]; simpl; [reflexivity | now rewrite IH]. Qed.

(** The five characters the pattern matches. *)
Lemma escapePattern_cases (c : ascii) :
  escapePattern c = true ->
  c = "&"%char \/ c = "<"%char \/ c = ">"%char \/ c = dquote \/ c = "'"%char.
Proof.
  destruct c as [[] [] [] [] [] [] [] []]; vm_compute; intros H;
    try discriminate H; auto 6.
Qed.

Lemma escapePattern_not (c : ascii) :
  escapePattern c = false ->
  c <> "&"%char /\ c <> "<"%char /\ c <> ">"%char /\ c <> dquote
  /\ c <> "'"%char.
Proof.
  intros H. repeat split; intros ->; vm_compute in H; discriminate H.
Qed.

Lemma escapeHtml_cons (c : ascii) (rest : string) :
  escapeHtml (String c rest) = (escapeOne c ++ escapeHtml rest)%string.
Proof. reflexivity. Qed.

Lemma escapeOne_inj (c1 c2 : ascii) (x y : string) :
  (escapeOne c1 ++ x)%string = (escapeOne c2 ++ y)%string ->
  c1 = c2 /\ x = y.
Proof.
  unfold escapeOne.
  destruct (escapePattern c1) eqn:E1; destruct (escapePattern c2) eqn:E2.
  - apply escapePattern_cases in E1, E2.
    destruct E1 as [-> | [-> | [-> | [-> | ->]]]];
      destruct E2 as [-> | [-> | [-> | [-> | ->]]]];
      vm_compute; intros H; try discriminate H;
      (split; [reflexivity | congruence]).
  - apply escapePattern_cases in E1. apply escapePattern_not in E2.
    destruct E2 as (N1 & _).
    destruct E1 as [-> | [-> | [-> | [-> | ->]]]]; vm_compute; intros H;
      injection H as H _; congruence.
  - apply escapePattern_cases in E2. apply escapePattern_not in E1.
    destruct E1 as (N1 & _).
    destruct E2 as [-> | [-> | [-> | [-> | ->]]]]; vm_compute; intros H;
      injection H as H _; congruence.
  - simpl. intros H. injection H as -> ->. auto.
Qed.

(** X1: the text [escapeHtml] returns holds neither angle bracket nor
    quote of either kind. *)
Theorem escapeHtml_no_markup (text : string) :
  Forall (fun c => c <> "<"%char /\ c <> ">"%char /\ c <> dquote
                   /\ c <> "'"%char)
    (chars (escapeHtml text)).
Proof.
  induction text as [|c rest IH]; [constructor|].
  rewrite escapeHtml_cons, chars_app. apply Forall_app. split; [|exact IH].
  unfold escapeOne. destruct (escapePattern c) eqn:E.
  - apply escapePattern_cases in E.
    destruct E as [-> | [-> | [-> | [-> | ->]]]]; vm_compute;
      repeat constructor; discriminate.
  - apply escapePattern_not in E. destruct E as (_ & N2 & N3 & N4 & N5).
    repeat constructor; assumption.
Qed.

(** X2: [escapeHtml] loses nothing: two texts with the same escaped form
    are the same text. *)
Theorem escapeHtml_injective (a b : string) :
  escapeHtml a = escapeHtml b -> a = b.
Proof.
  revert b. induction a as [|c a IH]; intros [|d b] H.
  - reflexivity.
  - exfalso. rewrite escapeHtml_cons in H. simpl in H.
    unfold escapeOne in H. destruct (escapePattern d) eqn:E.
    + apply escapePattern_cases in E.
      destruct E as [-> | [-> | [-> | [-> | ->]]]]; discriminate H.
    + discriminate H.
  - exfalso. rewrite escapeHtml_cons in H. simpl in H.
    unfold escapeOne in H. destruct (escapePattern c) eqn:E.
    + apply escapePattern_cases in E.
      destruct E as [-> | [-> | [-> | [-> | ->]]]]; discriminate H.
    + discriminate H.
  - rewrite !escapeHtml_cons in H. apply escapeOne_inj in H as [-> H].
    f_equal. now apply IH.
Qed.

(** X2 at a text with an ampersand; and the texts "a<b" and "a&lt;b",
    which a decoder could confuse, have different escaped forms. *)
Lemma escapeHtml_injective_entity :
  "Tom & Jerry" = "Tom & Jerry"
  /\ escapeHtml "a<b" <> escapeHtml "a&lt;b".
Proof.
  split.
  - apply (escapeHtml_injective "Tom & Jerry" "Tom & Jerry"). reflexivity.
  - intros H. apply escapeHtml_injective in H. discriminate H.
Defined.

(** X3: [escapeHtml] works character by character: the escaped form of a
    concatenation is the concatenation of the escaped forms, and a text
    without the five characters comes back unchanged. *)
Theorem escapeHtml_app_plain :
  (forall a b : string,
      escapeHtml (a ++ b) = (escapeHtml a ++ escapeHtml b)%string)
  /\ (forall text : string,
        Forall (fun c => escapePattern c = false) (chars text) ->
        escapeHtml text = text)
  /\ (forall text : string,
        (String.length text <= String.length (escapeHtml text))%nat).
Proof.
  split; [|split].
  - intros a b. induction a as [|c a IH]; [reflexivity|].
    change (String c a ++ b)%string with (String c (a ++ b)).
    now rewrite !escapeHtml_cons, IH, string_app_assoc'.
  - intros text. induction text as [|c rest IH]; intros H; [reflexivity|].
    apply Forall_cons in H as [Hc Hrest].
    rewrite escapeHtml_cons. unfold escapeOne. rewrite Hc. simpl.
    now rewrite IH.
  - intros text. induction text as [|c rest IH]; [reflexivity|].
    rewrite escapeHtml_cons. unfold escapeOne.
    destruct (escapePattern c) eqn:E.
    + apply escapePattern_cases in E.
      destruct E as [-> | [-> | [-> | [-> | ->]]]]; simpl; lia.
    + simpl. lia.
Qed.

(** X3 at a title without any of the five characters. *)
Lemma escapeHtml_app_plain_lunch : escapeHtml "Lunch out" = "Lunch out".
Proof.
  destruct escapeHtml_app_plain as (_ & Hplain & _).
  apply Hplain. vm_compute. repeat constructor.
Defined.

(* ===================================================================== *)
(** ** Theme *)
(* ===================================================================== *)

Lemma orLight_toggled (theme : string) :
  orLight (Some (if theme =? "light" then "dark" else "light"))
  = (if theme =? "light" then "dark" else "light").
Proof. destruct (theme =? "light"); reflexivity. Qed.

(** X4: the theme comes back after a reload. Whatever the store and the
    page were, [loadTheme] on the store [toggleTheme] leaves builds the
    page [toggleTheme] left; and with no theme stored, or an empty one,
    [loadTheme] applies "light" and offers the dark mode. *)
Theorem loadTheme_after_toggleTheme
    (localStorage : gmap string string) (page : Page.t) :
  loadTheme (fst (toggleTheme localStorage page))
  = snd (toggleTheme localStorage page)
  /\ (localStorage !! "theme" = None \/ localStorage !! "theme" = Some "" ->
      loadTheme localStorage
      = {| Page.dataTheme := Some "light";
           Page.themeToggle := darkModeButton |}).
Proof.
  split.
  - unfold toggleTheme, loadTheme. simpl.
    rewrite lookup_insert_eq. now rewrite orLight_toggled.
  - unfold loadTheme. intros [-> | ->]; reflexivity.
Qed.

(** X4 at a store without a theme. *)
Lemma loadTheme_after_toggleTheme_fresh :
  loadTheme ∅
  = {| Page.dataTheme := Some "light"; Page.themeToggle := darkModeButton |}.
Proof.
  destruct (loadTheme_after_toggleTheme ∅ (loadTheme ∅)) as [_ H].
  apply H. left. reflexivity.
Defined.

(** X5: [toggleTheme] switches between "dark" and "light": it stores and
    applies "dark" when the page has no theme, an empty one or "light",
    and "light" for every other theme, known or not. The button names the
    theme that is not on. After one toggle, two more give the same store
    and page again. *)
Theorem toggleTheme_alternates
    (localStorage : gmap string string) (page : Page.t) :
  let current := orLight (Page.dataTheme page) in
  let next := if current =? "light" then "dark" else "light" in
  let once := toggleTheme localStorage page in
  let twice := toggleTheme (fst once) (snd once) in
  let thrice := toggleTheme (fst twice) (snd twice) in
  fst once !! "theme" = Some next
  /\ Page.dataTheme (snd once) = Some next
  /\ (Page.themeToggle (snd once) = lightModeButton <-> next = "dark")
  /\ (Page.themeToggle (snd once) = darkModeButton <-> next = "light")
  /\ Page.dataTheme (snd twice)
     = Some (if next =? "light" then "dark" else "light")
  /\ thrice = once.
Proof.
  cbv zeta. unfold toggleTheme. simpl. rewrite lookup_insert_eq.
  assert (Hbuttons : lightModeButton <> darkModeButton)
    by (vm_compute; discriminate).
  destruct (orLight (Page.dataTheme page) =? "light"); simpl;
    rewrite !insert_insert_eq;
    (split; [reflexivity|]); (split; [reflexivity|]);
    (split; [split; [reflexivity || discriminate | congruence]|]);
    (split; [split; [discriminate || congruence | reflexivity || discriminate]|]);
    split; reflexivity.
Qed.

(** X6: [toggleTheme] writes to the key "theme" only: every other key of
    the store keeps its value, so the saved transactions load as
    before. *)
Theorem toggleTheme_keeps_other_keys
    (localStorage : gmap string string) (page : Page.t) :
  (forall key : string, key <> "theme" ->
     fst (toggleTheme localStorage page) !! key = localStorage !! key)
  /\ loadTransactions (fst (toggleTheme localStorage page))
     = loadTransactions localStorage.
Proof.
  split.
  - intros key Hne. unfold toggleTheme. simpl.
    now rewrite lookup_insert_ne.
  - unfold loadTransactions, toggleTheme. simpl.
    now rewrite lookup_insert_ne.
Qed.

(** X6 at a store that holds an empty ledger. *)
Lemma toggleTheme_keeps_other_keys_saved :
  fst (toggleTheme {[ "transactions" := "[]" ]} (applyTheme "light"))
    !! "transactions"
  = Some "[]".
Proof.
  destruct (toggleTheme_keeps_other_keys {[ "transactions" := "[]" ]}
              (applyTheme "light")) as [H _].
  rewrite H; [apply lookup_singleton_eq | discriminate].
Defined.

(* ===================================================================== *)
(** ** Selectors *)
(* ===================================================================== *)

Lemma filter_andb {A : Type} (p q : A -> bool) (l : list A) :
  List.filter (fun x => p x && q x) l = List.filter q (List.filter p l).
Proof.
  induction l as [|x l IH]; simpl; [reflexivity|].
  destruct (p x); simpl; [destruct (q x)|]; now rewrite IH.
Qed.

Lemma filter_comm {A : Type} (p q : A -> bool) (l : list A) :
  List.filter q (List.filter p l) = List.filter p (List.filter q l).
Proof.
  rewrite <- !filter_andb. apply filter_ext. intros x. apply andb_comm.
Qed.

Lemma byType_filter (type : string) (l : list Transaction.t) :
  byType type l
  = List.filter (fun t => (type =? "all") || (Transaction.type t =? type)) l.
Proof.
  unfold byType, getFilteredTransactions. simpl.
  apply filter_ext. intros t. apply andb_true_r.
Qed.

Lemma byCategory_filter (category : string) (l : list Transaction.t) :
  byCategory category l
  = List.filter
      (fun t => (category =? "all") || (Transaction.category t =? category)) l.
Proof. reflexivity. Qed.

(** X7: the type and the category selector act one after the other, in
    either order: with both set, the filtered view is the view by
    category of the view by type, and the view by type of the view by
    category; the two listeners commute and leave the ledger alone. *)
Theorem selectors_compose (this : ExpenseTracker) (type category : string) :
  let both := categoryFilterChange (typeFilterChange this type) category in
  typeFilterChange (categoryFilterChange this category) type = both
  /\ transactions both = transactions this
  /\ getFilteredTransactions both
     = byCategory category (byType type (transactions this))
  /\ getFilteredTransactions both
     = byType type (byCategory category (transactions this)).
Proof.
  intros both. subst both.
  split; [reflexivity|]. split; [reflexivity|].
  assert (H : getFilteredTransactions
                (categoryFilterChange (typeFilterChange this type) category)
              = byCategory category (byType type (transactions this))).
  { rewrite byCategory_filter, byType_filter, <- filter_andb. reflexivity. }
  split; [exact H|].
  rewrite H, !byCategory_filter, !byType_filter. apply filter_comm.
Qed.

Lemma sumWhere_none (type : string) (l : list Transaction.t) (acc : Number.t) :
  (forall t, In t l -> Transaction.type t <> type) ->
  sumWhere type l acc = acc.
Proof.
  revert acc. induction l as [|t l IH]; intros acc H; simpl; [reflexivity|].
  destruct (decide (Transaction.type t = type)) as [E|E].
  - exfalso. exact (H t (or_introl eq_refl) E).
  - apply IH. intros t' Ht'. apply H. now right.
Qed.

Lemma sub_zero (x : Number.t) : (x - Number.zero)%num = x.
Proof. destruct x as [[]|[]| |[]]; reflexivity. Qed.

Lemma view_types (this : ExpenseTracker) (t : Transaction.t) :
  Filters.type (filters this) <> "all" ->
  In t (getFilteredTransactions this) ->
  Transaction.type t = Filters.type (filters this).
Proof.
  intros Hne Hin.
  apply (Kept_In _ _ _ (getFilteredTransactions_Kept this)) in Hin.
  destruct Hin as [_ [[Hall|Ht] _]]; [contradiction | exact Ht].
Qed.

(** X8: with the type selector on "expense" the totals show income 0 and
    the balance 0 - expenses; on "income" they show expenses 0 and the
    balance equal to the income; on any other value but "all" they are
    all zero. *)
Theorem calculateTotals_one_type (this : ExpenseTracker) :
  let totals := calculateTotals this in
  let type := Filters.type (filters this) in
  (type = "expense" ->
   Totals.income totals = Number.zero
   /\ Totals.balance totals = (Number.zero - Totals.expenses totals)%num)
  /\ (type = "income" ->
      Totals.expenses totals = Number.zero
      /\ Totals.balance totals = Totals.income totals)
  /\ (type <> "all" -> type <> "income" -> type <> "expense" ->
      totals = zeroTotals).
Proof.
  intros totals type. subst totals type.
  rewrite calculateTotals_totalsOf. unfold totalsOf; simpl.
  assert (Hnone : forall other,
             Filters.type (filters this) <> "all" ->
             Filters.type (filters this) <> other ->
             sumWhere other (getFilteredTransactions this) Number.zero
             = Number.zero).
  { intros other Hall Hother. apply sumWhere_none. intros t Ht E.
    apply Hother. rewrite <- E. symmetry. now apply view_types. }
  split; [|split].
  - intros E. rewrite (Hnone "income"); [auto | rewrite E; discriminate ..].
  - intros E. rewrite (Hnone "expense"); [| rewrite E; discriminate ..].
    split; [reflexivity | apply sub_zero].
  - intros Hall Hinc Hexp. unfold zeroTotals.
    rewrite (Hnone "income"), (Hnone "expense") by assumption. reflexivity.
Qed.

(** X8 at the two-element example with the selector on "expense". *)
Lemma calculateTotals_one_type_ledger2 :
  Totals.income (calculateTotals (tracker ledger2 onlyExpenses)) = Number.zero.
Proof.
  destruct (calculateTotals_one_type (tracker ledger2 onlyExpenses))
    as (Hexpense & _).
  apply Hexpense. reflexivity.
Defined.

(* ===================================================================== *)
(** ** Monthly statistics and the month options *)
(* ===================================================================== *)

Lemma calculateMonthlyStats_of (monthLabel : string -> string)
    (this : ExpenseTracker) (month : string) :
  month <> "all" ->
  calculateMonthlyStats monthLabel this month
  = {| Stats.count := length (inMonth monthLabel month (transactions this));
       Stats.income :=
         sumWhere "income" (inMonth monthLabel month (transactions this))
           Number.zero;
       Stats.expenses :=
         sumWhere "expense" (inMonth monthLabel month (transactions this))
           Number.zero;
       Stats.net :=
         (sumWhere "income" (inMonth monthLabel month (transactions this))
            Number.zero
          - sumWhere "expense" (inMonth monthLabel month (transactions this))
              Number.zero)%num |}.
Proof.
  intros Hne. unfold calculateMonthlyStats, inMonth.
  apply String.eqb_neq in Hne. rewrite Hne. simpl.
  now rewrite !sumOfType_sumWhere.
Qed.

(** X9: for a month other than "all", the monthly statistics count and
    sum exactly the transactions whose date falls in that month, in their
    order, whatever the selectors are set to: the count is their number,
    income, expenses and net are their totals. A month in which no
    transaction falls gives the count 0 and three zeros. *)
Theorem calculateMonthlyStats_month (monthLabel : string -> string)
    (this : ExpenseTracker) (month : string) :
  month <> "all" ->
  let selected := inMonth monthLabel month (transactions this) in
  let stats := calculateMonthlyStats monthLabel this month in
  Kept (fun t => monthLabel (Transaction.date t) = month)
    (transactions this) selected
  /\ Stats.count stats = length selected
  /\ (Stats.count stats <= length (transactions this))%nat
  /\ Stats.income stats = Totals.income (totalsOf selected)
  /\ Stats.expenses stats = Totals.expenses (totalsOf selected)
  /\ Stats.net stats = Totals.balance (totalsOf selected)
  /\ (forall f, calculateMonthlyStats monthLabel (setFilters this f) month
                = stats)
  /\ ((forall t, In t (transactions this) ->
                 monthLabel (Transaction.date t) <> month) ->
      stats = zeroStats).
Proof.
  intros Hne selected stats. subst selected stats.
  rewrite calculateMonthlyStats_of by exact Hne. simpl.
  split; [apply filter_Kept; intros t; apply String.eqb_eq|].
  split; [reflexivity|].
  split; [apply filter_length_le|].
  split; [reflexivity|]. split; [reflexivity|]. split; [reflexivity|].
  split.
  - intros f. now rewrite calculateMonthlyStats_of.
  - intros Hnone.
    assert (E : inMonth monthLabel month (transactions this) = []).
    { unfold inMonth. induction (transactions this) as [|t l IH]; simpl;
        [reflexivity|].
      destruct (String.eqb_spec (monthLabel (Transaction.date t)) month) as [E|E].
      - exfalso. exact (Hnone t (or_introl eq_refl) E).
      - apply IH. intros t' Ht'. apply Hnone. now right. }
    rewrite E. reflexivity.
Qed.

(** X9 at the two-element example, whose dates fall in March 2024, with
    every date labelled by its first seven characters. *)
Lemma calculateMonthlyStats_month_ledger2 :
  let monthLabel d := substring 0 7 d in
  Stats.count (calculateMonthlyStats monthLabel (tracker ledger2 noFilter)
                 "2024-03") = 2%nat
  /\ calculateMonthlyStats monthLabel (tracker ledger2 onlyExpenses) "2024-04"
     = zeroStats.
Proof.
  intros monthLabel.
  destruct (calculateMonthlyStats_month monthLabel (tracker ledger2 noFilter)
              "2024-03") as (_ & Hcount & _); [discriminate|].
  destruct (calculateMonthlyStats_month monthLabel (tracker ledger2 onlyExpenses)
              "2024-04") as (_ & _ & _ & _ & _ & _ & _ & Hzero);
    [discriminate|].
  split.
  - rewrite Hcount. reflexivity.
  - apply Hzero. simpl. intros t [<-|[<-|[]]]; discriminate.
Defined.

Lemma existsb_eqb_In (x : string) (l : list string) :
  existsb (String.eqb x) l = true <-> In x l.
Proof.
  rewrite existsb_exists. split.
  - intros (y & Hy & E). apply String.eqb_eq in E. now subst.
  - intros H. exists x. split; [exact H | apply String.eqb_refl].
Qed.

Lemma setAdd_In (months : list string) (month m : string) :
  In m (setAdd months month) <-> In m months \/ m = month.
Proof.
  unfold setAdd. destruct (existsb (String.eqb month) months) eqn:E.
  - apply existsb_eqb_In in E. split; [auto|]. intros [H| ->]; assumption.
  - rewrite in_app_iff. simpl. intuition.
Qed.

Lemma setAdd_NoDup (months : list string) (month : string) :
  List.NoDup months -> List.NoDup (setAdd months month).
Proof.
  intros Hnd. unfold setAdd.
  destruct (existsb (String.eqb month) months) eqn:E; [exact Hnd|].
  apply NoDup_app_remove_l with (l := []). simpl.
  apply Permutation_NoDup with (l := month :: months).
  - apply Permutation_cons_append.
  - constructor; [|exact Hnd].
    intros Hin. apply existsb_eqb_In in Hin. congruence.
Qed.

Lemma observedMonths_spec (monthLabel : string -> string)
    (l : list Transaction.t) (acc : list string) :
  List.NoDup acc ->
  List.NoDup
    (fold_left (fun months t => setAdd months (monthLabel (Transaction.date t)))
       l acc)
  /\ forall m,
       In m (fold_left
               (fun months t => setAdd months (monthLabel (Transaction.date t)))
               l acc)
       <-> In m acc
           \/ exists t, In t l /\ monthLabel (Transaction.date t) = m.
Proof.
  revert acc. induction l as [|t l IH]; intros acc Hnd; simpl.
  - split; [exact Hnd|]. intros m. split; [auto|].
    intros [H|(t & [] & _)]. exact H.
  - destruct (IH _ (setAdd_NoDup acc (monthLabel (Transaction.date t)) Hnd))
      as [Hnd' Hin].
    split; [exact Hnd'|]. intros m. rewrite Hin, setAdd_In. split.
    + intros [[H| ->]|(t' & Ht' & E)]; eauto.
    + intros [H|(t' & [<-|Ht'] & E)]; eauto.
Qed.

Lemma sortedMonths_NoDup
    (monthLabel : string -> string) (timeValue : string -> Number.t)
    (sort : (string -> string -> Number.t) -> list string -> list string)
    (this : ExpenseTracker) :
  (forall compare l, Permutation (sort compare l) l) ->
  List.NoDup (sortedMonths monthLabel timeValue sort this).
Proof.
  intros Hsort. unfold sortedMonths.
  destruct (observedMonths_spec monthLabel (transactions this) []
              (List.NoDup_nil _)) as [Hnd _].
  eapply Permutation_NoDup; [symmetry; apply Hsort | exact Hnd].
Qed.

Lemma sortedMonths_In
    (monthLabel : string -> string) (timeValue : string -> Number.t)
    (sort : (string -> string -> Number.t) -> list string -> list string)
    (this : ExpenseTracker) (month : string) :
  (forall compare l, Permutation (sort compare l) l) ->
  In month (sortedMonths monthLabel timeValue sort this)
  <-> exists t, In t (transactions this)
                /\ monthLabel (Transaction.date t) = month.
Proof.
  intros Hsort. unfold sortedMonths.
  destruct (observedMonths_spec monthLabel (transactions this) []
              (List.NoDup_nil _)) as [_ Hin].
  split.
  - intros H. eapply Permutation_in in H; [|apply Hsort].
    apply Hin in H as [[]|H]. exact H.
  - intros H. eapply Permutation_in; [symmetry; apply Hsort|].
    apply Hin. now right.
Qed.

(** X10: the month options list every month in which a transaction falls,
    each once, and no other month. This holds for any sort that
    rearranges its input. *)
Theorem sortedMonths_each_month_once
    (monthLabel : string -> string) (timeValue : string -> Number.t)
    (sort : (string -> string -> Number.t) -> list string -> list string)
    (this : ExpenseTracker) :
  (forall compare l, Permutation (sort compare l) l) ->
  List.NoDup (sortedMonths monthLabel timeValue sort this)
  /\ forall month,
       In month (sortedMonths monthLabel timeValue sort this)
       <-> exists t, In t (transactions this)
                     /\ monthLabel (Transaction.date t) = month.
Proof.
  intros Hsort. split.
  - now apply sortedMonths_NoDup.
  - intros month. now apply sortedMonths_In.
Qed.

Lemma insertSorted_Permutation (compare : string -> string -> Number.t)
    (x : string) (l : list string) :
  Permutation (insertSorted compare x l) (x :: l).
Proof.
  induction l as [|y l IH]; simpl; [reflexivity|].
  destruct (SFltb Number.zero (compare y x)); [reflexivity|].
  rewrite IH. apply perm_swap.
Qed.

Lemma insertionSort_Permutation (compare : string -> string -> Number.t)
    (l : list string) :
  Permutation (insertionSort compare l) l.
Proof.
  unfold insertionSort.
  assert (H : forall acc,
             Permutation
               (fold_left (fun sorted x => insertSorted compare x sorted) l acc)
               (rev l ++ acc)).
  { induction l as [|x l IH]; intros acc; simpl; [reflexivity|].
    rewrite IH, insertSorted_Permutation, <- app_assoc. reflexivity. }
  rewrite H, app_nil_r. symmetry. apply Permutation_rev.
Qed.

(** X10 at that ledger, with the insertion sort: April comes before
    March. *)
Lemma sortedMonths_each_month_once_ledger3 :
  sortedMonths label7 labelTime insertionSort (tracker ledger3 noFilter)
  = ["2024-04"; "2024-03"]
  /\ List.NoDup
       (sortedMonths label7 labelTime insertionSort (tracker ledger3 noFilter)).
Proof.
  split; [vm_compute; reflexivity|].
  apply (sortedMonths_each_month_once label7 labelTime insertionSort).
  apply insertionSort_Permutation.
Defined.

Lemma list_sum_indicator (x : string) (ms : list string) :
  List.NoDup ms -> In x ms ->
  list_sum (map (fun m => if (x =? m)%string then 1%nat else 0%nat) ms) = 1%nat.
Proof.
  induction ms as [|m ms IH]; intros Hnd Hin; [destruct Hin|].
  apply List.NoDup_cons_iff in Hnd as [Hnotin Hnd]. simpl.
  destruct (String.eqb_spec x m) as [->|Hne].
  - f_equal.
    clear IH Hin Hnd. induction ms as [|m' ms IH]; simpl; [reflexivity|].
    destruct (String.eqb_spec m m') as [->|_].
    + exfalso. apply Hnotin. now left.
    + apply IH. intros H. apply Hnotin. now right.
  - destruct Hin as [->|Hin]; [contradiction|]. now apply IH.
Qed.

Lemma month_counts_sum (monthLabel : string -> string)
    (l : list Transaction.t) (ms : list string) :
  List.NoDup ms ->
  (forall t, In t l -> In (monthLabel (Transaction.date t)) ms) ->
  list_sum (map (fun m => length (inMonth monthLabel m l)) ms) = length l.
Proof.
  intros Hnd. induction l as [|t l IH]; intros Hall.
  - clear. induction ms as [|m ms IHms]; simpl; [reflexivity | exact IHms].
  - assert (E : forall m,
               length (inMonth monthLabel m (t :: l))
               = ((if (monthLabel (Transaction.date t) =? m)%string
                   then 1 else 0)
                  + length (inMonth monthLabel m l))%nat).
    { intros m. unfold inMonth. simpl.
      destruct (monthLabel (Transaction.date t) =? m); reflexivity. }
    rewrite (map_ext _ _ E).
    assert (Hsplit : forall (f g : string -> nat) (xs : list string),
               list_sum (map (fun m => (f m + g m)%nat) xs)
               = (list_sum (map f xs) + list_sum (map g xs))%nat).
    { intros f g xs. induction xs as [|x xs IHxs]; simpl; [reflexivity|].
      rewrite IHxs. lia. }
    rewrite Hsplit, list_sum_indicator, IH.
    + reflexivity.
    + intros t' Ht'. apply Hall. now right.
    + exact Hnd.
    + apply Hall. now left.
Qed.

(** X11: every transaction is counted under exactly one month option: when
    no month is labelled "all", the counts [calculateMonthlyStats] gives
    for the month options add up to the number of transactions. *)
Theorem month_counts_add_up
    (monthLabel : string -> string) (timeValue : string -> Number.t)
    (sort : (string -> string -> Number.t) -> list string -> list string)
    (this : ExpenseTracker) :
  (forall compare l, Permutation (sort compare l) l) ->
  (forall t, In t (transactions this) ->
             monthLabel (Transaction.date t) <> "all") ->
  list_sum
    (map (fun month =>
            Stats.count (calculateMonthlyStats monthLabel this month))
       (sortedMonths monthLabel timeValue sort this))
  = length (transactions this).
Proof.
  intros Hsort Hall.
  pose proof (sortedMonths_NoDup monthLabel timeValue sort this Hsort) as Hnd.
  pose proof (fun month =>
                sortedMonths_In monthLabel timeValue sort this month Hsort)
    as Hin.
  rewrite <- (month_counts_sum monthLabel (transactions this)
                (sortedMonths monthLabel timeValue sort this) Hnd).
  - apply f_equal, map_ext_in. intros month Hmonth.
    rewrite calculateMonthlyStats_of; [reflexivity|].
    apply Hin in Hmonth as (t & Ht & <-). now apply Hall.
  - intros t Ht. apply Hin. now exists t.
Qed.

(** X11 at the three-transaction ledger: 1 + 2 = 3. *)
Lemma month_counts_add_up_ledger3 :
  list_sum
    (map (fun month =>
            Stats.count
              (calculateMonthlyStats label7 (tracker ledger3 noFilter) month))
       (sortedMonths label7 labelTime insertionSort (tracker ledger3 noFilter)))
  = 3%nat.
Proof.
  apply (month_counts_add_up label7 labelTime insertionSort
           (tracker ledger3 noFilter)).
  - apply insertionSort_Permutation.
  - simpl. intros t [<-|[<-|[<-|[]]]]; vm_compute; discriminate.
Defined.

(* ===================================================================== *)
(** ** The form: messages and what reaches the ledger *)
(* ===================================================================== *)

Lemma field_message_shown (b1 b2 b3 b4 b5 : bool) :
  let shown :=
    when b1 ("titleError", "Title is required")
      ++ when b2 amountError
      ++ when b3 ("typeError", "Please select a type")
      ++ when b4 ("categoryError", "Please select a category")
      ++ when b5 ("dateError", "Date is required") in
  (In ("titleError", "Title is required") shown <-> b1 = true)
  /\ (In ("typeError", "Please select a type") shown <-> b3 = true)
  /\ (In ("categoryError", "Please select a category") shown <-> b4 = true)
  /\ (In ("dateError", "Date is required") shown <-> b5 = true)
  /\ (shown = [] <-> negb (b1 || b2 || b3 || b4 || b5) = true)
  /\ length shown
     = (Nat.b2n b1 + Nat.b2n b2 + Nat.b2n b3 + Nat.b2n b4 + Nat.b2n b5)%nat.
Proof.
  destruct b1, b2, b3, b4, b5; unfold when, amountError; simpl;
    repeat split; intros H; try reflexivity; try discriminate H; auto 6;
    repeat (destruct H as [H|H]; [discriminate H|]); destruct H.
Qed.

(** X12: [handleFormSubmit] tests all five fields, whatever the others
    hold: the title message is shown exactly for a title that is empty
    after trimming, the type, category and date messages exactly for an
    empty value, so the number of messages is the number of fields that
    fail. The form is accepted exactly when no message is shown; then the
    ledger has one transaction more, and otherwise the tracker is as it
    was. *)
Theorem handleFormSubmit_messages
    (this : ExpenseTracker) (clock : Clock.t) (form : Form.t) :
  let result := handleFormSubmit this clock form in
  let shown := snd result in
  (In ("titleError", "Title is required") shown
   <-> trim (Form.title form) = "")
  /\ (In ("typeError", "Please select a type") shown <-> Form.type form = "")
  /\ (In ("categoryError", "Please select a category") shown
      <-> Form.category form = "")
  /\ (In ("dateError", "Date is required") shown <-> Form.date form = "")
  /\ length shown
     = (Nat.b2n (falsy (trim (Form.title form)))
        + Nat.b2n (amountRejected (Form.amount form))
        + Nat.b2n (falsy (Form.type form))
        + Nat.b2n (falsy (Form.category form))
        + Nat.b2n (falsy (Form.date form)))%nat
  /\ (shown = [] ->
      length (transactions (fst result)) = S (length (transactions this)))
  /\ (shown <> [] -> fst result = this).
Proof.
  intros result shown. subst shown result.
  rewrite handleFormSubmit_shown.
  pose proof (validate_closed_form form) as Hc.
  destruct (field_message_shown
              (falsy (trim (Form.title form)))
              (amountRejected (Form.amount form))
              (falsy (Form.type form))
              (falsy (Form.category form))
              (falsy (Form.date form)))
    as (H1 & H3 & H4 & H5 & Hnil & Hlen).
  rewrite Hc; simpl.
  rewrite <- !falsy_empty.
  split; [exact H1|]. split; [exact H3|]. split; [exact H4|].
  split; [exact H5|]. split; [exact Hlen|].
  split.
  - intros Hshown. apply Hnil in Hshown.
    rewrite handleFormSubmit_accepted; [reflexivity|].
    rewrite Hc. exact Hshown.
  - intros Hshown. apply handleFormSubmit_rejected.
    rewrite Hc. simpl. apply not_true_is_false. intros Hvalid.
    apply Hshown. now apply Hnil.
Qed.

(** X12 at a form with an empty title and an empty date. *)
Lemma handleFormSubmit_messages_two_missing :
  let form :=
    {| Form.title := "   "; Form.amount := "12.50";
       Form.type := "expense"; Form.category := "food"; Form.date := "" |} in
  let clock := {| Clock.now := 1700000000000%N; Clock.toISOString := "" |} in
  length (snd (handleFormSubmit (tracker ledger2 noFilter) clock form)) = 2%nat
  /\ fst (handleFormSubmit (tracker ledger2 noFilter) clock form)
     = tracker ledger2 noFilter.
Proof.
  intros form clock.
  destruct (handleFormSubmit_messages (tracker ledger2 noFilter) clock form)
    as (_ & _ & _ & _ & Hlen & _ & Hrejected).
  split; [rewrite Hlen; vm_compute; reflexivity|].
  apply Hrejected. rewrite handleFormSubmit_shown. vm_compute. discriminate.
Defined.

Lemma trimStart_idem (l : list ascii) : trimStart (trimStart l) = trimStart l.
Proof.
  induction l as [|c l IH]; simpl; [reflexivity|].
  destruct (isWhiteSpace c) eqn:E; [exact IH|]. simpl. now rewrite E.
Qed.

Lemma trimStart_snoc (l : list ascii) (c : ascii) :
  isWhiteSpace c = false -> trimStart (l ++ [c]) = trimStart l ++ [c].
Proof.
  intros Hc. induction l as [|d l IH]; simpl; [now rewrite Hc|].
  destruct (isWhiteSpace d); [exact IH | reflexivity].
Qed.

Lemma trimEnd_cons (c : ascii) (l : list ascii) :
  isWhiteSpace c = false -> trimEnd (c :: l) = c :: trimEnd l.
Proof.
  intros Hc. unfold trimEnd. simpl.
  now rewrite trimStart_snoc, rev_app_distr.
Qed.

Lemma trimStart_head (l : list ascii) :
  match trimStart l with
  | c :: _ => isWhiteSpace c = false
  | [] => True
  end.
Proof.
  induction l as [|c l IH]; simpl; [exact I|].
  destruct (isWhiteSpace c) eqn:E; [exact IH | exact E].
Qed.

(** Trimming a trimmed string changes nothing. *)
Lemma trim_idem (s : string) : trim (trim s) = trim s.
Proof.
  unfold trim, chars. rewrite list_ascii_of_string_of_list_ascii. f_equal.
  set (l := trimStart (list_ascii_of_string s)).
  assert (Hstart : trimStart (trimEnd l) = trimEnd l).
  { pose proof (trimStart_head (list_ascii_of_string s)) as Hhead.
    fold l in Hhead. destruct l as [|c l']; [reflexivity|].
    rewrite trimEnd_cons by exact Hhead. simpl. now rewrite Hhead. }
  rewrite Hstart. unfold trimEnd. now rewrite rev_involutive, trimStart_idem.
Qed.

Lemma handleFormSubmit_fromForm (this : ExpenseTracker) (clock : Clock.t)
    (form : Form.t) :
  Forall fromForm (transactions this) ->
  Forall fromForm (transactions (fst (handleFormSubmit this clock form))).
Proof.
  intros Hall. destruct (fst (validate form)) eqn:Hv.
  - pose proof Hv as Hv'. rewrite validate_closed_form in Hv'. simpl in Hv'.
    apply negb_true_iff in Hv'.
    repeat (apply orb_false_iff in Hv' as [Hv' ?]).
    rewrite handleFormSubmit_accepted by exact Hv. simpl.
    constructor; [|exact Hall].
    unfold fromForm; simpl.
    split; [now apply falsy_nonempty|]. split; [apply trim_idem|].
    split; [unfold amountRejected in *; now apply orb_false_iff in H2|].
    split; [now apply falsy_nonempty|]. split; now apply falsy_nonempty.
  - now rewrite handleFormSubmit_rejected.
Qed.

(** X13: whatever is done on the page, in whatever order, the ledger only
    ever gains transactions that passed the form's tests: if every
    transaction has a non-empty title without white space around it, an
    amount that is not at most 0 and a non-empty type, category and date,
    then so has every transaction after any run of submissions, deletes,
    clears and selector changes. *)
Theorem performAll_keeps_fromForm (actions : list action)
    (this : ExpenseTracker) :
  Forall fromForm (transactions this) ->
  Forall fromForm (transactions (performAll this actions)).
Proof.
  revert this. induction actions as [|a actions IH]; intros this Hall;
    [exact Hall|].
  apply IH. destruct a as [clock form|[|] id|[|]|v|v|v]; simpl;
    try exact Hall.
  - now apply handleFormSubmit_fromForm.
  - rewrite List.Forall_forall in *. intros t Ht.
    apply filter_In in Ht as [Ht _]. now apply Hall.
  - constructor.
Qed.

(** X13 from an empty ledger: a submission, a selector change and a
    submission with the amount -5. *)
Lemma performAll_keeps_fromForm_session :
  let clock n := {| Clock.now := n; Clock.toISOString := "" |} in
  let form amount :=
    {| Form.title := " Lunch "; Form.amount := amount;
       Form.type := "expense"; Form.category := "food";
       Form.date := "2024-03-01" |} in
  Forall fromForm
    (transactions
       (performAll (tracker [] noFilter)
          [Submit (clock 1%N) (form "12.50"); SelectType "income";
           Submit (clock 2%N) (form "-5")])).
Proof.
  intros clock form. apply performAll_keeps_fromForm. constructor.
Defined.

(* ===================================================================== *)
(** ** How adding, deleting and clearing compose *)
(* ===================================================================== *)

(** X14: deleting the transaction just added, by its id, undoes the add,
    when that id was not already in the ledger. *)
Theorem deleteTransaction_undoes_addTransaction
    (this : ExpenseTracker) (clock : Clock.t) (transaction : Input.t) :
  ~ In (toString (Clock.now clock)) (map Transaction.id (transactions this)) ->
  deleteTransaction (addTransaction this clock transaction) true
    (toString (Clock.now clock))
  = this.
Proof.
  intros Hfresh. unfold deleteTransaction, addTransaction, setTransactions.
  simpl. rewrite String.eqb_refl. simpl.
  rewrite filter_all; [destruct this; reflexivity|].
  intros t Ht. apply negb_true_iff, String.eqb_neq. intros E.
  apply Hfresh. rewrite <- E. now apply in_map.
Qed.

(** X14 at the two-element example and a clock reading that is no id. *)
Lemma deleteTransaction_undoes_addTransaction_ledger2 :
  let clock := {| Clock.now := 1700000000000%N; Clock.toISOString := "" |} in
  let input :=
    {| Input.title := "Lunch"; Input.amount := Number.of_Z 12;
       Input.type := "expense"; Input.category := "food";
       Input.date := "2024-03-01" |} in
  deleteTransaction (addTransaction (tracker ledger2 noFilter) clock input)
    true "1700000000000"
  = tracker ledger2 noFilter.
Proof.
  intros clock input.
  apply (deleteTransaction_undoes_addTransaction
           (tracker ledger2 noFilter) clock input).
  simpl. intros [H|[H|[]]]; discriminate H.
Defined.

Lemma filter_length_count (id : string) (l : list Transaction.t) :
  (length (List.filter (fun t => negb (Transaction.id t =? id)%string) l)
   + count_occ string_dec (map Transaction.id l) id)%nat
  = length l.
Proof.
  induction l as [|t l IH]; simpl; [reflexivity|].
  destruct (string_dec (Transaction.id t) id) as [E|E].
  - apply String.eqb_eq in E. rewrite E. simpl. lia.
  - apply String.eqb_neq in E. rewrite E. simpl. lia.
Qed.

(** X15: confirmed deletes commute, and a delete shortens the ledger by
    exactly the number of transactions that have the id. *)
Theorem deleteTransaction_commutes_and_counts
    (this : ExpenseTracker) (a b : string) :
  deleteTransaction (deleteTransaction this true a) true b
  = deleteTransaction (deleteTransaction this true b) true a
  /\ (length (transactions (deleteTransaction this true a))
      + count_occ string_dec (map Transaction.id (transactions this)) a)%nat
     = length (transactions this).
Proof.
  split.
  - unfold deleteTransaction, setTransactions. simpl.
    f_equal. apply filter_comm.
  - apply filter_length_count.
Qed.

(** X16: a delete acts on the filtered view as it acts on the ledger: the
    view afterwards is the view before without the transactions that have
    the id. *)
Theorem getFilteredTransactions_after_delete
    (this : ExpenseTracker) (id : string) :
  getFilteredTransactions (deleteTransaction this true id)
  = List.filter (fun t => negb (Transaction.id t =? id))
      (getFilteredTransactions this)
  /\ Kept (fun t => Transaction.id t <> id)
       (getFilteredTransactions this)
       (getFilteredTransactions (deleteTransaction this true id)).
Proof.
  assert (E : getFilteredTransactions (deleteTransaction this true id)
              = List.filter (fun t => negb (Transaction.id t =? id))
                  (getFilteredTransactions this)).
  { unfold getFilteredTransactions, deleteTransaction. simpl.
    apply filter_comm. }
  split; [exact E|]. rewrite E. apply filter_Kept. intros t.
  rewrite negb_true_iff. apply String.eqb_neq.
Qed.

(** X17: a new transaction enters the filtered view exactly when it
    passes the selectors, and then as its first entry; the rest of the
    view is as before. *)
Theorem getFilteredTransactions_after_add
    (this : ExpenseTracker) (clock : Clock.t) (transaction : Input.t) :
  let new := newTransaction clock transaction in
  let view := getFilteredTransactions this in
  let view' := getFilteredTransactions (addTransaction this clock transaction) in
  (passes (filters this) new -> view' = new :: view)
  /\ (~ passes (filters this) new -> view' = view).
Proof.
  intros new view view'. subst new view view'.
  unfold getFilteredTransactions at 1 3. simpl.
  fold (getFilteredTransactions this).
  pose proof (passes_test (filters this) (newTransaction clock transaction))
    as Htest. simpl in Htest.
  destruct (((Filters.type (filters this) =? "all")
             || (Input.type transaction =? Filters.type (filters this)))
            && ((Filters.category (filters this) =? "all")
                || (Input.category transaction
                    =? Filters.category (filters this)))) eqn:E.
  - split; [reflexivity|]. intros Hnot. exfalso. apply Hnot.
    now apply Htest.
  - split; [|reflexivity]. intros Hpass. apply Htest in Hpass. discriminate.
Qed.

(** X17 with the type selector on "expense": an expense is listed first,
    an income is not listed. *)
Lemma getFilteredTransactions_after_add_expense :
  let clock := {| Clock.now := 3%N; Clock.toISOString := "" |} in
  let input type :=
    {| Input.title := "Lunch"; Input.amount := Number.of_Z 12;
       Input.type := type; Input.category := "food";
       Input.date := "2024-03-01" |} in
  getFilteredTransactions
    (addTransaction (tracker ledger2 onlyExpenses) clock (input "expense"))
  = newTransaction clock (input "expense")
      :: getFilteredTransactions (tracker ledger2 onlyExpenses)
  /\ getFilteredTransactions
       (addTransaction (tracker ledger2 onlyExpenses) clock (input "income"))
     = getFilteredTransactions (tracker ledger2 onlyExpenses).
Proof.
  intros clock input. split.
  - apply (getFilteredTransactions_after_add (tracker ledger2 onlyExpenses)
             clock (input "expense")).
    split; [right; reflexivity | left; reflexivity].
  - apply (getFilteredTransactions_after_add (tracker ledger2 onlyExpenses)
             clock (input "income")).
    intros [[H|H] _]; discriminate H.
Defined.

(** X18: after a confirmed clear every derived view is empty: no
    transaction is listed, recent or filtered, the totals are three zeros,
    and the monthly statistics are zero for every month, "all" included.
    The selectors stay as they were. *)
Theorem clearAllTransactions_empties_views
    (monthLabel : string -> string) (this : ExpenseTracker) :
  let this' := clearAllTransactions this true in
  transactions this' = []
  /\ getFilteredTransactions this' = []
  /\ recentTransactions this' = []
  /\ calculateTotals this' = zeroTotals
  /\ (forall month, calculateMonthlyStats monthLabel this' month = zeroStats)
  /\ filters this' = filters this.
Proof.
  intros this'. subst this'. repeat split.
  intros month. unfold calculateMonthlyStats. simpl.
  destruct (month =? "all"); reflexivity.
Qed.

(* ===================================================================== *)
(** ** The recent transactions *)
(* ===================================================================== *)

(** X19: the recent list holds the first five transactions of the ledger,
    all of them when there are fewer; it ignores the selectors; and after
    an add it is the new transaction followed by the first four of the
    old recent list. *)
Theorem recentTransactions_first_five (this : ExpenseTracker) :
  (length (recentTransactions this) = Nat.min 5 (length (transactions this)))
  /\ (exists rest, transactions this = recentTransactions this ++ rest)
  /\ ((length (transactions this) <= 5)%nat ->
      recentTransactions this = transactions this)
  /\ (forall f, recentTransactions (setFilters this f) = recentTransactions this)
  /\ (forall clock transaction,
        recentTransactions (addTransaction this clock transaction)
        = newTransaction clock transaction
            :: firstn 4 (recentTransactions this)).
Proof.
  unfold recentTransactions. split; [apply length_firstn|].
  split; [exists (skipn 5 (transactions this)); symmetry; apply firstn_skipn|].
  split; [intros Hle; now apply firstn_all2|].
  split; [reflexivity|].
  intros clock transaction. simpl. f_equal.
  rewrite firstn_firstn. reflexivity.
Qed.

(** X19 at the two-element example. *)
Lemma recentTransactions_first_five_ledger2 :
  recentTransactions (tracker ledger2 onlyExpenses) = ledger2.
Proof.
  destruct (recentTransactions_first_five (tracker ledger2 onlyExpenses))
    as (_ & _ & Hall & _).
  apply Hall. simpl. lia.
Defined.

(* ===================================================================== *)
(** ** Icons and rendering *)
(* ===================================================================== *)




Lemma abs_opp (x : Number.t) : SFabs (SFopp x) = SFabs x.
Proof. destruct x; reflexivity. Qed.

(** X21: the sign of an amount never reaches the page: [formatCurrency]
    gives an amount and its negation the same text, and a transaction
    renders the same with its amount negated. The direction shows in the
    prefix alone, which follows the type. *)
Theorem amount_sign_never_rendered
    (formatDate : string -> string) (currencyFormat : Number.t -> string)
    (inheritedText : string -> string) (t : Transaction.t) :
  let negated :=
    {| Transaction.id := Transaction.id t;
       Transaction.title := Transaction.title t;
       Transaction.amount := SFopp (Transaction.amount t);
       Transaction.type := Transaction.type t;
       Transaction.category := Transaction.category t;
       Transaction.date := Transaction.date t;
       Transaction.timestamp := Transaction.timestamp t |} in
  formatCurrency currencyFormat (SFopp (Transaction.amount t))
  = formatCurrency currencyFormat (Transaction.amount t)
  /\ createTransactionHTML formatDate currencyFormat inheritedText negated
     = createTransactionHTML formatDate currencyFormat inheritedText t.
Proof.
  intros negated. subst negated.
  assert (E : formatCurrency currencyFormat (SFopp (Transaction.amount t))
              = formatCurrency currencyFormat (Transaction.amount t)).
  { unfold formatCurrency. now rewrite abs_opp. }
  split; [exact E|].
  unfold createTransactionHTML. cbn [Transaction.id Transaction.title
    Transaction.amount Transaction.type Transaction.category Transaction.date].
  now rewrite E.
Qed.

Lemma createTransactionHTML_head
    (formatDate : string -> string) (currencyFormat : Number.t -> string)
    (inheritedText : string -> string) (t : Transaction.t) :
  exists rest,
    createTransactionHTML formatDate currencyFormat inheritedText t
    = String (ascii_of_N 10) rest.
Proof. eexists. unfold createTransactionHTML, nl. reflexivity. Qed.

Lemma length_zero_nil {A : Type} (l : list A) :
  (length l =? 0)%nat = true <-> l = [].
Proof. destruct l; simpl; split; intros H; congruence. Qed.

Lemma join_items_not_message
    (formatDate : string -> string) (currencyFormat : Number.t -> string)
    (inheritedText : string -> string) (l : list Transaction.t)
    (message : string) :
  (exists rest, message = String "<"%char rest) ->
  ((if (length l =? 0)%nat then message
    else join (map (createTransactionHTML formatDate currencyFormat
                      inheritedText) l)) = message
   <-> l = []).
Proof.
  intros (rest & ->). destruct l as [|t l].
  - split; reflexivity.
  - unfold join. cbn [length Nat.eqb map fold_right].
    destruct (createTransactionHTML_head formatDate currencyFormat
                inheritedText t) as (rest' & E).
    rewrite E. cbn [String.append].
    split; intros H; discriminate H.
Qed.

(** X22: each list shows its empty-state message exactly when it has
    nothing to show: the recent list when the ledger is empty, the list of
    all transactions when the selectors leave nothing. The recent list
    does not depend on the selectors. *)
Theorem updateTransactionLists_empty_states
    (formatDate : string -> string) (currencyFormat : Number.t -> string)
    (inheritedText : string -> string) (this : ExpenseTracker) :
  let lists :=
    updateTransactionLists formatDate currencyFormat inheritedText this in
  (fst lists = noRecentTransactions <-> transactions this = [])
  /\ (snd lists = noTransactionsFound <-> getFilteredTransactions this = [])
  /\ (forall f,
        fst (updateTransactionLists formatDate currencyFormat inheritedText
               (setFilters this f))
        = fst lists).
Proof.
  intros lists. subst lists. unfold updateTransactionLists. simpl.
  split; [|split; [|reflexivity]].
  - rewrite join_items_not_message by (eexists; reflexivity).
    unfold recentTransactions. destruct (transactions this); simpl;
      split; intros H; congruence.
  - apply join_items_not_message. eexists; reflexivity.
Qed.

(* ===================================================================== *)
(** ** Saving and loading *)
(* ===================================================================== *)

Lemma sameNumber_eq (x y : Number.t) : sameNumber x y = true -> x = y.
Proof.
  destruct x as [s|s| |s m e], y as [s'|s'| |s' m' e']; simpl;
    try discriminate; try reflexivity.
  - intros H. apply Bool.eqb_prop in H. now subst.
  - intros H. apply Bool.eqb_prop in H. now subst.
  - intros H. apply andb_true_iff in H as [H He].
    apply andb_true_iff in H as [Hs Hm].
    apply Bool.eqb_prop in Hs. apply Pos.eqb_eq in Hm. apply Z.eqb_eq in He.
    now subst.
Qed.

Lemma lexRun_app (st : JSON.lexState) (s1 s2 : list ascii)
    (st1 st2 : JSON.lexState) (t1 t2 : list JSON.token) :
  lexRun st s1 = Some (st1, t1) ->
  lexRun st1 s2 = Some (st2, t2) ->
  lexRun st (s1 ++ s2) = Some (st2, t1 ++ t2).
Proof.
  revert st t1. induction s1 as [|c s1 IH]; intros st t1 H1 H2.
  - injection H1 as -> <-. exact H2.
  - simpl in H1 |- *.
    destruct (JSON.lexStep st c) as [[st' toks]|]; [|discriminate].
    destruct (lexRun st' s1) as [[st'' toks']|] eqn:E; [|discriminate].
    injection H1 as -> <-.
    rewrite (IH _ _ E H2). now rewrite app_assoc.
Qed.

Lemma lexFrom_lexRun (st : JSON.lexState) (s : list ascii)
    (toks : list JSON.token) :
  lexRun st s = Some (JSON.LStart, toks) -> JSON.lexFrom st s = Some toks.
Proof.
  revert st toks. induction s as [|c s IH]; intros st toks H.
  - now injection H as -> <-.
  - simpl in H |- *.
    destruct (JSON.lexStep st c) as [[st' toks']|]; [|discriminate].
    destruct (lexRun st' s) as [[st'' toks'']|] eqn:E; [|discriminate].
    injection H as -> <-. now rewrite (IH _ _ E).
Qed.

(** One written character of a string is read as that character. *)
Lemma lexRun_quoteChar (c : ascii) (acc : list N) :
  lexRun (JSON.LString acc) (chars (quoteChar c))
  = Some (JSON.LString (code c :: acc), []).
Proof. destruct c as [[] [] [] [] [] [] [] []]; reflexivity. Qed.

Lemma lexRun_quoteBody (s : string) (acc : list N) :
  lexRun (JSON.LString acc) (chars (quoteBody s) ++ [dquote])
  = Some (JSON.LStart, [JSON.TString (rev acc ++ codes s)]).
Proof.
  revert acc. induction s as [|c s IH]; intros acc.
  - simpl. unfold codes. simpl. now rewrite app_nil_r.
  - change (quoteBody (String c s)) with (quoteChar c ++ quoteBody s)%string.
    rewrite chars_app, <- app_assoc.
    rewrite (lexRun_app _ _ _ _ _ _ _ (lexRun_quoteChar c acc) (IH _)).
    unfold codes. simpl. now rewrite <- app_assoc.
Qed.

(** A written string is read as one string token. *)
Lemma lexRun_quoteJSONString (s : string) :
  lexRun JSON.LStart (chars (quoteJSONString s))
  = Some (JSON.LStart, [JSON.TString (codes s)]).
Proof.
  unfold quoteJSONString.
  change (dq ++ quoteBody s ++ dq)%string
    with (String dquote (quoteBody s ++ dq)%string).
  change (chars (String dquote (quoteBody s ++ dq)%string))
    with (dquote :: chars (quoteBody s ++ dq)%string).
  rewrite chars_app.
  change (chars dq) with [dquote].
  change (lexRun JSON.LStart (dquote :: chars (quoteBody s) ++ [dquote]))
    with (match lexRun (JSON.LString []) (chars (quoteBody s) ++ [dquote]) with
          | Some (st'', toks') => Some (st'', [] ++ toks')
          | None => None
          end).
  now rewrite lexRun_quoteBody.
Qed.

Lemma wordChar_start (c : ascii) :
  JSON.isWordChar c = true ->
  JSON.lexStart c = Some (JSON.LWord [c], []).
Proof.
  destruct c as [[] [] [] [] [] [] [] []]; vm_compute; intros H;
    try discriminate H; reflexivity.
Qed.

Lemma lexRun_word (w acc : list ascii) :
  forallb JSON.isWordChar w = true ->
  lexRun (JSON.LWord acc) w = Some (JSON.LWord (rev w ++ acc), []).
Proof.
  revert acc. induction w as [|c w IH]; intros acc H; [reflexivity|].
  simpl in H. apply andb_true_iff in H as [Hc Hw].
  simpl. rewrite Hc, (IH _ Hw). simpl. now rewrite <- app_assoc.
Qed.

(** A word and the comma after it. *)
Lemma lexRun_word_comma (w : list ascii) (tok : JSON.token) :
  w <> [] ->
  forallb JSON.isWordChar w = true ->
  JSON.finishWord (rev w) = Some tok ->
  lexRun JSON.LStart (w ++ chars ",") = Some (JSON.LStart, [tok; JSON.TComma]).
Proof.
  intros Hne Hw Htok. destruct w as [|c w]; [contradiction|].
  simpl in Hw. apply andb_true_iff in Hw as [Hc Hw].
  change ((c :: w) ++ chars ",") with (c :: (w ++ chars ",")).
  cbn [lexRun JSON.lexStep]. rewrite (wordChar_start c Hc).
  rewrite (lexRun_app _ w (chars ",") _ JSON.LStart [] [tok; JSON.TComma]
             (lexRun_word w [c] Hw)); [reflexivity|].
  change (chars ",") with [","%char]. cbn [lexRun JSON.lexStep].
  change (JSON.isWordChar ","%char) with false. cbv iota.
  change (rev w ++ [c]) with (rev (c :: w)). rewrite Htok. reflexivity.
Qed.

Lemma finishWord_number (w : list ascii) (x : Number.t) :
  JSON.number w = Some x ->
  JSON.finishWord (rev w) = Some (JSON.TScalar (JSON.Num x)).
Proof.
  intros H. unfold JSON.finishWord. rewrite rev_involutive.
  repeat case_bool_decide; subst; try (vm_compute in H; discriminate H).
  now rewrite H.
Qed.

(** A written amount and the comma after it are read as the amount. *)
Lemma lexRun_stringifyNumber (x : Number.t) :
  readsBack x = true ->
  lexRun JSON.LStart (chars (stringifyNumber x) ++ chars ",")
  = Some (JSON.LStart, [JSON.TScalar (jsonOfAmount x); JSON.TComma]).
Proof.
  intros H. destruct x as [s|s| |s m e]; try reflexivity.
  unfold readsBack in H. apply andb_true_iff in H as [Hw Hn].
  destruct (JSON.number (chars (numberToString (S754_finite s m e))))
    as [y|] eqn:E; [|discriminate].
  apply sameNumber_eq in Hn. subst y.
  apply lexRun_word_comma; [|exact Hw|now apply finishWord_number].
  intros Hnil. change (stringifyNumber (S754_finite s m e))
    with (numberToString (S754_finite s m e)) in Hnil.
  rewrite Hnil in E. discriminate E.
Qed.

Lemma lexRun_start_app (s1 s2 : list ascii) (t1 t2 : list JSON.token) :
  lexRun JSON.LStart s1 = Some (JSON.LStart, t1) ->
  lexRun JSON.LStart s2 = Some (JSON.LStart, t2) ->
  lexRun JSON.LStart (s1 ++ s2) = Some (JSON.LStart, t1 ++ t2).
Proof. apply lexRun_app. Qed.

Lemma lexRun_amount_app (x : Number.t) (s2 : list ascii)
    (t2 : list JSON.token) :
  readsBack x = true ->
  lexRun JSON.LStart s2 = Some (JSON.LStart, t2) ->
  lexRun JSON.LStart (chars (stringifyNumber x) ++ chars "," ++ s2)
  = Some (JSON.LStart,
          [JSON.TScalar (jsonOfAmount x); JSON.TComma] ++ t2).
Proof.
  intros Hx H2. rewrite app_assoc.
  exact (lexRun_app _ _ _ _ _ _ _ (lexRun_stringifyNumber x Hx) H2).
Qed.

(** A saved transaction is read as its tokens. *)
Lemma lexRun_stringifyTransaction (t : Transaction.t) :
  readsBack (Transaction.amount t) = true ->
  lexRun JSON.LStart (chars (stringifyTransaction t))
  = Some (JSON.LStart, tokensOfTransaction t).
Proof.
  intros Hx.
  assert (H : exists toks,
             lexRun JSON.LStart (chars (stringifyTransaction t))
             = Some (JSON.LStart, toks)
             /\ toks = tokensOfTransaction t).
  { unfold stringifyTransaction. rewrite !chars_app.
    eexists. split.
    - repeat first
        [ apply lexRun_amount_app; [exact Hx|]
        | apply lexRun_start_app;
          [first [apply lexRun_quoteJSONString | reflexivity]|] ].
      reflexivity.
    - reflexivity. }
  destruct H as (toks & H & ->). exact H.
Qed.

Lemma lexRun_items (l : list Transaction.t) :
  Forall (fun t => readsBack (Transaction.amount t) = true) l ->
  lexRun JSON.LStart (chars (commaSeparated (map stringifyTransaction l)))
  = Some (JSON.LStart, tokensOfItems l).
Proof.
  induction l as [|t l IH]; intros Hall; [reflexivity|].
  apply Forall_cons in Hall as [Ht Hl].
  destruct l as [|t' l'].
  - simpl. now apply lexRun_stringifyTransaction.
  - change (commaSeparated (map stringifyTransaction (t :: t' :: l')))
      with (stringifyTransaction t ++ ","
            ++ commaSeparated (map stringifyTransaction (t' :: l')))%string.
    rewrite !chars_app.
    change (tokensOfItems (t :: t' :: l'))
      with (tokensOfTransaction t
            ++ [JSON.TComma] ++ tokensOfItems (t' :: l')).
    apply lexRun_start_app; [now apply lexRun_stringifyTransaction|].
    apply lexRun_start_app; [reflexivity | now apply IH].
Qed.

Lemma parse_transaction (t : Transaction.t) (stack : list JSON.frame)
    (rest : list JSON.token) :
  JSON.parseFrom (JSON.PValue stack) (tokensOfTransaction t ++ rest)
  = JSON.parseFrom (JSON.PAfter (jsonOfTransaction t) stack) rest.
Proof. reflexivity. Qed.

Lemma parse_items (l : list Transaction.t) (t : Transaction.t)
    (done : list JSON.value) (stack : list JSON.frame)
    (rest : list JSON.token) :
  JSON.parseFrom (JSON.PValue (JSON.FArray done :: stack))
    (tokensOfItems (t :: l) ++ JSON.TRBracket :: rest)
  = JSON.parseFrom
      (JSON.PAfter
         (JSON.Array (rev done ++ map jsonOfTransaction (t :: l))) stack)
      rest.
Proof.
  revert t done. induction l as [|t' l IH]; intros t done.
  - change (tokensOfItems [t]) with (tokensOfTransaction t).
    rewrite parse_transaction. reflexivity.
  - change (tokensOfItems (t :: t' :: l))
      with (tokensOfTransaction t ++ JSON.TComma :: tokensOfItems (t' :: l)).
    rewrite <- app_assoc, parse_transaction.
    change (JSON.parseFrom
              (JSON.PAfter (jsonOfTransaction t) (JSON.FArray done :: stack))
              ((JSON.TComma :: tokensOfItems (t' :: l))
               ++ JSON.TRBracket :: rest))
      with (JSON.parseFrom
              (JSON.PValue (JSON.FArray (jsonOfTransaction t :: done) :: stack))
              (tokensOfItems (t' :: l) ++ JSON.TRBracket :: rest)).
    rewrite IH. simpl. now rewrite <- app_assoc.
Qed.

(** What was saved parses to the saved transactions. *)
Lemma parse_stringify (l : list Transaction.t) :
  Forall (fun t => readsBack (Transaction.amount t) = true) l ->
  JSON.parse (stringify l) = Return (JSON.Array (map jsonOfTransaction l)).
Proof.
  intros Hall. unfold JSON.parse, stringify.
  assert (Hlex : JSON.lexFrom JSON.LStart
                   (chars ("[" ++ commaSeparated (map stringifyTransaction l)
                           ++ "]"))
                 = Some ([JSON.TLBracket] ++ tokensOfItems l
                         ++ [JSON.TRBracket])).
  { apply lexFrom_lexRun. rewrite !chars_app.
    apply lexRun_start_app; [reflexivity|].
    apply lexRun_start_app; [now apply lexRun_items | reflexivity]. }
  rewrite Hlex. destruct l as [|t l]; [reflexivity|].
  change (JSON.parseFrom (JSON.PValue [])
            ([JSON.TLBracket] ++ tokensOfItems (t :: l) ++ [JSON.TRBracket]))
    with (JSON.parseFrom (JSON.PArrayStart [])
            (tokensOfItems (t :: l) ++ [JSON.TRBracket])).
  assert (Hstart : JSON.parseFrom (JSON.PArrayStart [])
                     (tokensOfItems (t :: l) ++ [JSON.TRBracket])
                   = JSON.parseFrom (JSON.PValue [JSON.FArray []])
                       (tokensOfItems (t :: l) ++ [JSON.TRBracket])).
  { destruct l; reflexivity. }
  rewrite Hstart, parse_items. reflexivity.
Qed.

(** X23: what [saveTransactions] stores, [loadTransactions] reads back:
    it returns the array of the saved transactions, each an object with
    its seven properties in order and its strings unchanged, whatever
    characters they hold. An amount comes back as the same number when its
    printed form denotes it again; NaN and the infinities come back as
    [null], and a negative zero as 0. *)
Theorem loadTransactions_after_saveTransactions
    (this : ExpenseTracker) (localStorage : gmap string string) :
  Forall (fun t => readsBack (Transaction.amount t) = true)
    (transactions this) ->
  loadTransactions (saveTransactions this localStorage)
  = Return (JSON.Array (map jsonOfTransaction (transactions this))).
Proof.
  intros Hall. unfold loadTransactions, saveTransactions.
  rewrite lookup_insert_eq.
  change (falsy (stringify (transactions this))) with false. cbv iota.
  now apply parse_stringify.
Qed.

(** X23 at a ledger with the amounts 12.5, 0.1 and NaN and a title with
    an ampersand, quotes and a backslash. *)
Lemma loadTransactions_after_saveTransactions_three :
  loadTransactions (saveTransactions (tracker ledgerToSave noFilter) ∅)
  = Return (JSON.Array (map jsonOfTransaction ledgerToSave)).
Proof.
  apply (loadTransactions_after_saveTransactions
           (tracker ledgerToSave noFilter) ∅).
  repeat constructor; vm_compute; reflexivity.
Defined.

Lemma abs_zero_sub (x : Number.t) :
  SFabs (Number.zero - x)%num = SFabs x.
Proof. destruct x as [[]|[]| |[]]; reflexivity. Qed.

(** X24: the summary cards show no sign. When the filtered view holds no
    income, the balance 0 - expenses is shown as the same text as the
    expenses, and the income card shows the text for 0. *)
Theorem updateSummaryCards_deficit_unsigned
    (currencyFormat : Number.t -> string) (this : ExpenseTracker) :
  (forall t, In t (getFilteredTransactions this) ->
             Transaction.type t <> "income") ->
  let cards := updateSummaryCards currencyFormat this in
  fst (fst cards) = snd cards
  /\ snd (fst cards) = currencyFormat Number.zero.
Proof.
  intros Hnone cards. subst cards. unfold updateSummaryCards.
  rewrite calculateTotals_totalsOf. unfold totalsOf, formatCurrency. simpl.
  rewrite (sumWhere_none "income") by exact Hnone.
  split; [now rewrite abs_zero_sub | reflexivity].
Qed.

(** X24 at the two-element example with the type selector on
    "expense". *)
Lemma updateSummaryCards_deficit_unsigned_ledger2 :
  let cards :=
    updateSummaryCards (fun x => numberToString x)
      (tracker ledger2 onlyExpenses) in
  fst (fst cards) = snd cards.
Proof.
  intros cards.
  apply (updateSummaryCards_deficit_unsigned (fun x => numberToString x)
           (tracker ledger2 onlyExpenses)).
  simpl. intros t [<-|[]]. discriminate.
Defined.
